(** * The eslint rule that keeps [Construct] unqualified

    A shallow embedding of
    [tools/eslint-plugin-cdk/lib/rules/import-core-last.ts]: the rule that
    rewrites [xxx.Construct] to [Construct] (or [CoreConstruct]) and keeps the
    import of [CoreConstruct] on a line of its own.

    The rule owns two module-level variables, [importCache] and
    [importOrderViolation]; they are threaded explicitly through every
    handler.  What the rule hands to eslint ([context.report], the calls on
    the [fixer]) is recorded as data. *)

From Stdlib Require Import String Ascii List Bool ZArith Lia.
Import ListNotations.
Open Scope string_scope.
Open Scope list_scope.
Open Scope Z_scope.

Set Implicit Arguments.

(** ** Syntax trees (the parts of estree the rule reads) *)

(** [AST.Range]: start and end offset in the source text, a JavaScript
    [[number, number]]. *)
Definition Range : Type := Z * Z.

(** The three shapes of [node.specifiers]; estree types [range] as optional,
    and the rule tests it. *)
Inductive ImportSpecifierNode : Type :=
| ImportSpecifier (imported local : string) (range : option Range)
| ImportDefaultSpecifier (local : string) (range : option Range)
| ImportNamespaceSpecifier (local : string) (range : option Range).

(** [s.local.name] *)
Definition local_name (s : ImportSpecifierNode) : string :=
  match s with
  | ImportSpecifier _ l _ => l
  | ImportDefaultSpecifier l _ => l
  | ImportNamespaceSpecifier l _ => l
  end.

(** [s.range] *)
Definition specifier_range (s : ImportSpecifierNode) : option Range :=
  match s with
  | ImportSpecifier _ _ r => r
  | ImportDefaultSpecifier _ r => r
  | ImportNamespaceSpecifier _ r => r
  end.

(** An [ImportDeclaration] node: [node.specifiers], [node.source.value], and
    the node's own range (where [insertTextAfter] puts its text). *)
Record ImportDeclarationNode : Type := {
  specifiers : list ImportSpecifierNode;
  source_value : string;
  import_range : Range
}.

(** [typeName] of a TSTypeReference: an identifier or a qualified name
    [left.right], whose [right] is always an identifier. *)
Inductive EntityName : Type :=
| TSIdentifier (name : string)
| TSQualifiedName (left : EntityName) (right : string).

(** What [node.typeAnnotation.typeAnnotation] can be: a type reference, the
    only type node with a [typeName], or any other type. *)
Inductive TypeNode : Type :=
| TSTypeReference (typeName : EntityName) (range : Range)
| TSOtherType (range : Range).

Definition type_range (t : TypeNode) : Range :=
  match t with
  | TSTypeReference _ r => r
  | TSOtherType r => r
  end.

(** An [Identifier] node, with the annotation typescript-eslint hangs on it
    ([node.typeAnnotation?.typeAnnotation]). *)
Record IdentifierNode : Type := {
  name : string;
  typeAnnotation : option TypeNode
}.

Inductive Expression : Type :=
| Identifier_expr (id : IdentifierNode)
| MemberExpression (object property : Expression) (range : option Range)
| OtherExpression.

(** A [ClassDeclaration] node: [node.superClass] may be absent. *)
Record ClassDeclarationNode : Type := {
  class_name : string;
  superClass : option Expression
}.

(** The nodes the rule passes to [context.report] and to the fixer. *)
Inductive Node : Type :=
| ImportDeclaration_node (n : ImportDeclarationNode)
| ClassDeclaration_node (n : ClassDeclarationNode)
| Identifier_node (n : IdentifierNode).

(** ** JavaScript helpers *)

(** [s.includes(needle)] *)
Fixpoint includes (s needle : string) : bool :=
  if String.prefix needle s then true
  else match s with
       | EmptyString => false
       | String _ s' => includes s' needle
       end.

(** [l[i]] for a JavaScript number [i]: [undefined] out of range, also for
    [-1]. *)
Definition at_index {A : Type} (l : list A) (i : Z) : option A :=
  if i <? 0 then None else nth_error l (Z.to_nat i).

Definition newline : string := String "010"%char EmptyString.
Definition dquote : string := String "034"%char EmptyString.

(** [lines.join('\n')] *)
Definition join_lines (lines : list string) : string := String.concat newline lines.

(** ** The import cache *)

Module ImportCache.

(** One recorded binding, as the rule builds it at [importCache.record]. *)
Record Import : Type := {
  fileName : string;
  typeName : string;
  importNode : ImportDeclarationNode;
  localName : string
}.

(** [importCache.imports] *)
Definition imports_t : Type := list Import.

(** Modelled from the spec: the class [ImportCache] of
    [../private/import-cache], which the rule imports and which is not part
    of the sources at hand.  The cache is an append-only log: [record]
    appends a binding, nothing is ever evicted or deduplicated, and a new
    cache is empty. *)
Definition record (imports : imports_t) (i : Import) : imports_t := imports ++ [i].

Definition empty : imports_t := [].

End ImportCache.
Import ImportCache.

(** ** What the rule gives to eslint *)

(** A call on the [fixer]; eslint turns each into a text edit. *)
Inductive Fix : Type :=
| replaceTextRange (range : Range) (text : string)
| insertTextAfter (nodeOrToken : ImportDeclarationNode) (text : string)
| removeRange (range : Range).

(** The descriptor given to [context.report].  eslint runs the descriptor's
    fix callback while it translates the report, so [fixes] holds the array
    the callback returns on the cache as it is at the report. *)
Record Report : Type := {
  message : string;
  node : Node;
  fixes : list Fix
}.

(** [interface ImportOrderViolation] *)
Record ImportOrderViolation : Type := {
  violation_node : ImportDeclarationNode;
  violation_range : Range
}.

(** The two module-level variables of the rule. *)
Record Globals : Type := {
  importCache : imports_t;
  importOrderViolation : option ImportOrderViolation
}.

(** Reading a property of [undefined] throws a [TypeError]; the rule can do
    so in two places. *)
Inductive TypeError : Type :=
| range_of_undefined       (* [node.specifiers[i + 1].range![0]] *)
| importNode_of_undefined. (* [lastImport.importNode] *)

(** ** A small monad: module state, reports, exceptions *)

Record Outcome (A : Type) : Type := {
  globals : Globals;
  reports : list Report;
  value : TypeError + A
}.

Definition Rule (A : Type) : Type := Globals -> Outcome A.

Definition ret {A : Type} (a : A) : Rule A :=
  fun g => {| globals := g; reports := []; value := inr a |}.

Definition throw {A : Type} (e : TypeError) : Rule A :=
  fun g => {| globals := g; reports := []; value := inl e |}.

Definition bind {A B : Type} (m : Rule A) (f : A -> Rule B) : Rule B :=
  fun g =>
    let o := m g in
    match value o with
    | inl e => {| globals := globals o; reports := reports o; value := inl e |}
    | inr a =>
        let o' := f a (globals o) in
        {| globals := globals o'; reports := reports o ++ reports o'; value := value o' |}
    end.

(** An expression that may throw, run inside a handler. *)
Definition lift {A : Type} (r : TypeError + A) : Rule A :=
  match r with
  | inl e => throw e
  | inr a => ret a
  end.

Notation "x <- m ;; k" := (bind m (fun x => k))
  (at level 61, m at next level, right associativity).
Notation "m ;; k" := (bind m (fun _ => k))
  (at level 61, right associativity).

(** [context.report(descriptor)] *)
Definition context_report (r : Report) : Rule unit :=
  fun g => {| globals := g; reports := [r]; value := inr tt |}.

Definition get_importCache : Rule imports_t :=
  fun g => {| globals := g; reports := []; value := inr (importCache g) |}.

Definition get_importOrderViolation : Rule (option ImportOrderViolation) :=
  fun g => {| globals := g; reports := []; value := inr (importOrderViolation g) |}.

(** [importOrderViolation = v] *)
Definition set_importOrderViolation (v : option ImportOrderViolation) : Rule unit :=
  fun g => {| globals := {| importCache := importCache g; importOrderViolation := v |};
              reports := []; value := inr tt |}.

(** [importCache.record(i)] *)
Definition importCache_record (i : Import) : Rule unit :=
  fun g => {| globals := {| importCache := record (importCache g) i;
                            importOrderViolation := importOrderViolation g |};
              reports := []; value := inr tt |}.

(** ** The rule *)

(** [Rule.RuleContext]: the rule reads the file name from it; reporting is
    [context_report]. *)
Record RuleContext : Type := {
  getFilename : string
}.

Definition importOrderMessage : string :=
  String.concat EmptyString
    ["To avoid merge conflicts with the v2 branch, "; dquote; "CoreConstruct"; dquote;
     " import should be in its own line"].

Definition qualifierMessage : string :=
  String.concat EmptyString
    ["To avoid merge conflicts with the v2-main branch, the "; dquote; "Construct"; dquote;
     " type must be referenced without a qualifier (e.g. "; dquote; "Construct"; dquote;
     " instead of "; dquote; "CoreConstruct"; dquote; ")"].

Definition keepSeparateComment : string :=
  "// keep this import separate from other imports to reduce chance for merge conflicts with v2-main".

Definition eslintDisableComment : string :=
  "// eslint-disable-next-line no-duplicate-imports, import/order".

(** [importCache.imports.filter(x => x.fileName === context.getFilename())] *)
Definition imports_of (context : RuleContext) (cache : imports_t) : imports_t :=
  filter (fun x => (fileName x =? getFilename context)%string) cache.

(** [imports.find(i => i.localName === x)] *)
Definition findImport (imports : imports_t) (x : string) : option Import :=
  find (fun i => (localName i =? x)%string) imports.

(** [imports[imports.length - 1]] *)
Definition lastImport_of (imports : imports_t) : option Import :=
  at_index imports (Z.of_nat (length imports) - 1).

(** The first half of the fixer in [report]: the pair [(replaceBy, addImport)]
    the four branches assign. *)
Definition replaceBy_addImport (imports : imports_t) : string * option string :=
  let coreConstruct := findImport imports "@aws-cdk/core.Construct" in
  let coreCoreConstruct := findImport imports "@aws-cdk/core.CoreConstruct" in
  let constructsConstruct := findImport imports "constructs.Construct" in
  match coreConstruct with
  | Some _ => ("Construct", None)
  | None =>
    match coreCoreConstruct with
    | Some _ => ("CoreConstruct", None)
    | None =>
      match constructsConstruct with
      | Some _ =>
          let replaceBy := "CoreConstruct" in
          (replaceBy,
           Some (String.concat EmptyString
                   ["import { Construct as "; replaceBy; " } from '@aws-cdk/core';"]))
      | None =>
          let replaceBy := "Construct" in
          (replaceBy,
           Some (String.concat EmptyString
                   ["import { "; replaceBy; " } from '@aws-cdk/core';"]))
      end
    end
  end.

(** The fixer of [report], run on the cache [cache]. *)
Definition report_fix (context : RuleContext) (cache : imports_t) (replaceRange : Range)
  : list Fix :=
  let imports := imports_of context cache in
  let '(replaceBy, addImport) := replaceBy_addImport imports in
  let fixes := [replaceTextRange replaceRange replaceBy] in
  match addImport with
  | Some addImport =>
      match lastImport_of imports with
      | Some lastImport =>
          fixes ++ [insertTextAfter (importNode lastImport)
                      (join_lines [EmptyString; EmptyString; keepSeparateComment;
                                   eslintDisableComment; addImport])]
      | None => fixes
      end
  | None => fixes
  end.

(** [function report(context, node, replaceRange)] *)
Definition report (context : RuleContext) (n : Node) (replaceRange : Range) : Rule unit :=
  cache <- get_importCache ;;
  context_report {| message := qualifierMessage;
                    node := n;
                    fixes := report_fix context cache replaceRange |}.

(** The fixer of [reportImportOrderViolations]: [lastImport.importNode] throws
    when the file has no recorded import. *)
Definition importOrder_fix (context : RuleContext) (cache : imports_t)
    (violation : ImportOrderViolation) : TypeError + list Fix :=
  let fixes := [removeRange (violation_range violation)] in
  let imports := imports_of context cache in
  match lastImport_of imports with
  | Some lastImport =>
      inr (fixes ++ [insertTextAfter (importNode lastImport)
                       (join_lines [EmptyString; EmptyString; keepSeparateComment;
                                    eslintDisableComment;
                                    "import { Construct as CoreConstruct } from '@aws-cdk/core'"])])
  | None => inl importNode_of_undefined
  end.

(** [function reportImportOrderViolations(context)] *)
Definition reportImportOrderViolations (context : RuleContext) : Rule unit :=
  pending <- get_importOrderViolation ;;
  match pending with
  | Some violation =>
      cache <- get_importCache ;;
      match importOrder_fix context cache violation with
      | inr fixes =>
          context_report {| message := importOrderMessage;
                            node := ImportDeclaration_node (violation_node violation);
                            fixes := fixes |}
      | inl e => throw e
      end
  | None => ret tt
  end.

(** The closure [typeName] of the import handler. *)
Definition specifier_typeName (s : ImportSpecifierNode) : string :=
  match s with
  | ImportSpecifier imported _ _ => imported
  | ImportDefaultSpecifier l _ => l
  | ImportNamespaceSpecifier l _ => l
  end.

(** The range stored with a pending violation, for the specifier at index [i]
    of [node.specifiers], whose own range is [s_range]:
    [(i === node.specifiers.length - 1) ? s.range
       : [s.range[0], node.specifiers[i + 1].range![0]]]. *)
Definition violation_range_at (n : ImportDeclarationNode) (i : Z) (s_range : Range)
  : TypeError + Range :=
  if i =? Z.of_nat (length (specifiers n)) - 1 then inr s_range
  else match at_index (specifiers n) (i + 1) with
       | Some next =>
           match specifier_range next with
           | Some next_range => inr (fst s_range, fst next_range)
           | None => inl range_of_undefined
           end
       | None => inl range_of_undefined
       end.

(** The object literal given to [importCache.record]. *)
Definition recorded_import (context : RuleContext) (n : ImportDeclarationNode)
    (s : ImportSpecifierNode) : Import :=
  {| fileName := getFilename context;
     typeName := specifier_typeName s;
     importNode := n;
     localName := String.concat EmptyString [source_value n; "."; local_name s] |}.

(** The body of [for (const [i, s] of node.specifiers.entries())]. *)
Definition ImportDeclaration_body (context : RuleContext) (n : ImportDeclarationNode)
    (i : Z) (s : ImportSpecifierNode) : Rule unit :=
  (if (local_name s =? "CoreConstruct")%string
   then match specifier_range s with
        | Some s_range =>
            if 1 <? Z.of_nat (length (specifiers n))
            then range <- lift (violation_range_at n i s_range) ;;
                 set_importOrderViolation
                   (Some {| violation_node := n; violation_range := range |})
            else ret tt
        | None => ret tt
        end
   else ret tt) ;;
  importCache_record (recorded_import context n s).

(** The loop, from index [i] on; [rest] are the specifiers still to visit. *)
Fixpoint ImportDeclaration_loop (context : RuleContext) (n : ImportDeclarationNode)
    (i : Z) (rest : list ImportSpecifierNode) : Rule unit :=
  match rest with
  | [] => ret tt
  | s :: rest' =>
      ImportDeclaration_body context n i s ;;
      ImportDeclaration_loop context n (i + 1) rest'
  end.

(** [sc.property.type === 'Identifier' ? sc.property.name : undefined] *)
Definition baseClass_of (property : Expression) : option string :=
  match property with
  | Identifier_expr id => Some (name id)
  | _ => None
  end.

(** [type?.type === 'TSQualifiedName' && type?.right.name === 'Construct'
     && type?.left.name !== 'constructs'], for [type] the [typeName] of the
    annotation. *)
Definition is_qualified_Construct (ann : TypeNode) : bool :=
  match ann with
  | TSTypeReference (TSQualifiedName type_left type_right) _ =>
      (type_right =? "Construct")%string
      && negb match type_left with
              | TSIdentifier left_name => (left_name =? "constructs")%string
              | TSQualifiedName _ _ => false
              end
  | _ => false
  end.

(** [Rule.NodeListener]: the handlers a rule registers, by node type. *)
Record NodeListener : Type := {
  Program : option (Rule unit);
  ImportDeclaration : option (ImportDeclarationNode -> Rule unit);
  ClassDeclaration : option (ClassDeclarationNode -> Rule unit);
  Identifier : option (IdentifierNode -> Rule unit)
}.

Definition Program_handler : Rule unit :=
  set_importOrderViolation None.

Definition ImportDeclaration_handler (context : RuleContext) (n : ImportDeclarationNode)
  : Rule unit :=
  ImportDeclaration_loop context n 0 (specifiers n).

Definition ClassDeclaration_handler (context : RuleContext) (n : ClassDeclarationNode)
  : Rule unit :=
  match superClass n with
  | Some (MemberExpression _ property sc_range) =>
      let baseClass := baseClass_of property in
      match baseClass, sc_range with
      | Some b, Some r =>
          if (b =? "Construct")%string then report context (ClassDeclaration_node n) r
          else ret tt
      | _, _ => ret tt
      end ;;
      match baseClass with
      | Some b =>
          if (b =? "CoreConstruct")%string then reportImportOrderViolations context
          else ret tt
      | None => ret tt
      end
  | _ => ret tt
  end.

Definition Identifier_handler (context : RuleContext) (n : IdentifierNode) : Rule unit :=
  match typeAnnotation n with
  | Some ann =>
      if is_qualified_Construct ann
      then report context (Identifier_node n) (type_range ann)
      else ret tt
  | None => ret tt
  end ;;
  if (name n =? "CoreConstruct")%string then reportImportOrderViolations context
  else ret tt.

(** [export function create(context)] *)
Definition create (context : RuleContext) : NodeListener :=
  if includes (getFilename context) "@aws-cdk/core"
  then {| Program := None; ImportDeclaration := None;
          ClassDeclaration := None; Identifier := None |}
  else {| Program := Some Program_handler;
          ImportDeclaration := Some (ImportDeclaration_handler context);
          ClassDeclaration := Some (ClassDeclaration_handler context);
          Identifier := Some (Identifier_handler context) |}.

(** ** The host: traversal and text *)

(** Modelled from the spec: the host linter's traversal, which is not part of
    the sources at hand.  It supplies, one file at a time and in document
    order, a stream of typed node visits, and a begin-of-file visit (the
    [Program] node) precedes each file's stream. *)
Inductive Visit : Type :=
| visit_Program
| visit_ImportDeclaration (n : ImportDeclarationNode)
| visit_ClassDeclaration (n : ClassDeclarationNode)
| visit_Identifier (n : IdentifierNode).

(** The host calls the handler registered for the node's type, if any. *)
Definition dispatch (listener : NodeListener) (v : Visit) : Rule unit :=
  match v with
  | visit_Program =>
      match Program listener with Some h => h | None => ret tt end
  | visit_ImportDeclaration n =>
      match ImportDeclaration listener with Some h => h n | None => ret tt end
  | visit_ClassDeclaration n =>
      match ClassDeclaration listener with Some h => h n | None => ret tt end
  | visit_Identifier n =>
      match Identifier listener with Some h => h n | None => ret tt end
  end.

(** A handler that throws ends the traversal. *)
Fixpoint traverse (listener : NodeListener) (vs : list Visit) : Rule unit :=
  match vs with
  | [] => ret tt
  | v :: vs' => dispatch listener v ;; traverse listener vs'
  end.

(** Linting one file: the rule is created for the file, then the [Program]
    node and the nodes of [body] are visited. *)
Definition lint (context : RuleContext) (body : list Visit) : Rule unit :=
  traverse (create context) (visit_Program :: body).

(** Modelled from the spec: the text a range [start, end) covers, and the
    host's application of a [removeRange] edit to the source text. *)
Definition text_in (src : string) (r : Range) : string :=
  substring (Z.to_nat (fst r)) (Z.to_nat (snd r - fst r)) src.

Definition apply_removeRange (src : string) (r : Range) : string :=
  (substring 0 (Z.to_nat (fst r)) src
   ++ substring (Z.to_nat (snd r)) (String.length src - Z.to_nat (snd r)) src)%string.

(** ** The vocabulary of the statements *)

(** Computations that leave the module state as they found it. *)
Definition keeps_globals {A : Type} (m : Rule A) : Prop :=
  forall g, globals (m g) = g.

(** What one iteration of the loop does to the pending slot. *)
Definition pending_after (n : ImportDeclarationNode) (i : Z) (s : ImportSpecifierNode)
    (pending : option ImportOrderViolation) : TypeError + option ImportOrderViolation :=
  if (local_name s =? "CoreConstruct")%string
  then match specifier_range s with
       | Some s_range =>
           if 1 <? Z.of_nat (length (specifiers n))
           then match violation_range_at n i s_range with
                | inl e => inl e
                | inr del => inr (Some {| violation_node := n; violation_range := del |})
                end
           else inr pending
       | None => inr pending
       end
  else inr pending.

(** A specifier carries a range, as every node eslint hands to a rule does. *)
Definition has_range (s : ImportSpecifierNode) : Prop := specifier_range s <> None.

(** The range the rule stores for an alias specifier of range [r] that is
    followed by the specifiers [post]. *)
Definition delete_range (r : Range) (post : list ImportSpecifierNode) : Range :=
  match post with
  | [] => r
  | next :: _ =>
      match specifier_range next with
      | Some next_range => (fst r, fst next_range)
      | None => r
      end
  end.

(** Two ranges that share no character. *)
Definition ranges_apart (a b : Range) : Prop :=
  snd b <= fst a \/ snd a <= fst b.

(** [s1] ends before [s2] starts. *)
Definition ends_before (s1 s2 : ImportSpecifierNode) : Prop :=
  forall r1 r2, specifier_range s1 = Some r1 -> specifier_range s2 = Some r2 ->
                snd r1 <= fst r2.

(** The specifiers of a parsed declaration: each range runs forward, and the
    specifiers follow one another in the text. *)
Definition in_document_order (l : list ImportSpecifierNode) : Prop :=
  Forall (fun s => forall r, specifier_range s = Some r -> 0 <= fst r <= snd r) l
  /\ ForallOrdPairs ends_before l.

(** Visits of classes and identifiers: the nodes below the imports. *)
Definition is_reference_visit (v : Visit) : bool :=
  match v with
  | visit_ClassDeclaration _ | visit_Identifier _ => true
  | visit_Program | visit_ImportDeclaration _ => false
  end.

(** The qualifier violation [report] emits at node [n] for the range [r]. *)
Definition qualifier_report (context : RuleContext) (g : Globals) (n : Node) (r : Range)
  : Report :=
  {| message := qualifierMessage; node := n;
     fixes := report_fix context (importCache g) r |}.

Definition class_qualifier_reports (context : RuleContext) (n : ClassDeclarationNode)
    (g : Globals) : list Report :=
  match superClass n with
  | Some (MemberExpression _ property (Some r)) =>
      match baseClass_of property with
      | Some b => if (b =? "Construct")%string
                  then [qualifier_report context g (ClassDeclaration_node n) r] else []
      | None => []
      end
  | _ => []
  end.

Definition class_uses_alias (n : ClassDeclarationNode) : bool :=
  match superClass n with
  | Some (MemberExpression _ property _) =>
      match baseClass_of property with
      | Some b => (b =? "CoreConstruct")%string
      | None => false
      end
  | _ => false
  end.

Definition identifier_qualifier_reports (context : RuleContext) (n : IdentifierNode)
    (g : Globals) : list Report :=
  match typeAnnotation n with
  | Some ann => if is_qualified_Construct ann
                then [qualifier_report context g (Identifier_node n) (type_range ann)]
                else []
  | None => []
  end.

(** The text the isolation fix inserts after the last import. *)
Definition isolation_import_text : string :=
  join_lines [EmptyString; EmptyString; keepSeparateComment; eslintDisableComment;
              "import { Construct as CoreConstruct } from '@aws-cdk/core'"].

(** [r] is the isolation violation that flushes the pending violation [v]. *)
Definition flushes (v : ImportOrderViolation) (r : Report) : Prop :=
  message r = importOrderMessage
  /\ node r = ImportDeclaration_node (violation_node v)
  /\ exists anchor,
       fixes r = [removeRange (violation_range v);
                  insertTextAfter anchor isolation_import_text].

(** The visits that use the alias: an identifier named [CoreConstruct], or a
    class that extends a member expression whose property is. *)
Definition uses_CoreConstruct (v : Visit) : bool :=
  match v with
  | visit_Identifier n => (name n =? "CoreConstruct")%string
  | visit_ClassDeclaration n => class_uses_alias n
  | visit_Program | visit_ImportDeclaration _ => false
  end.

(** Whenever a violation is pending, the file has a recorded import. *)
Definition anchored (context : RuleContext) (g : Globals) : Prop :=
  importOrderViolation g <> None -> imports_of context (importCache g) <> [].

(** Two module states that a file cannot tell apart: the same bindings
    recorded for this file, in the same order, and the same pending slot. *)
Definition same_for (context : RuleContext) (g1 g2 : Globals) : Prop :=
  imports_of context (importCache g1) = imports_of context (importCache g2)
  /\ importOrderViolation g1 = importOrderViolation g2.

(** A computation that does the same on any two such states. *)
Definition file_local (context : RuleContext) {A : Type} (m : Rule A) : Prop :=
  forall g1 g2,
    same_for context g1 g2 ->
    reports (m g1) = reports (m g2)
    /\ value (m g1) = value (m g2)
    /\ same_for context (globals (m g1)) (globals (m g2)).

(** The text [report] inserts after the last import, for the import
    statement [addImport]. *)
Definition added_import_text (addImport : string) : string :=
  join_lines [EmptyString; EmptyString; keepSeparateComment; eslintDisableComment; addImport].

(** A report is over [r] when its fix replaces the text of [r]. *)
Definition replaces_range (r : Range) (rep : Report) : Prop :=
  exists replaceBy inserted, fixes rep = replaceTextRange r replaceBy :: inserted.

(** ** Sample files *)

Module Samples.

Definition app_ts : RuleContext := {| getFilename := "lib/app.ts" |}.
Definition other_ts : RuleContext := {| getFilename := "lib/other.ts" |}.
Definition core_ts : RuleContext :=
  {| getFilename := "packages/@aws-cdk/core/lib/stack.ts" |}.

Definition no_globals : Globals :=
  {| importCache := ImportCache.empty; importOrderViolation := None |}.

(** [import { A, CoreConstruct, B } from 'm';] *)
Definition src_mid : string := "import { A, CoreConstruct, B } from 'm';".
Definition import_mid : ImportDeclarationNode :=
  {| specifiers := [ImportSpecifier "A" "A" (Some (9, 10));
                    ImportSpecifier "CoreConstruct" "CoreConstruct" (Some (12, 25));
                    ImportSpecifier "B" "B" (Some (27, 28))];
     source_value := "m";
     import_range := (0, 40) |}.

(** [import { A, CoreConstruct } from 'm';] *)
Definition src_last : string := "import { A, CoreConstruct } from 'm';".
Definition import_last : ImportDeclarationNode :=
  {| specifiers := [ImportSpecifier "A" "A" (Some (9, 10));
                    ImportSpecifier "CoreConstruct" "CoreConstruct" (Some (12, 25))];
     source_value := "m";
     import_range := (0, 37) |}.

(** [import { Resource, Construct as CoreConstruct, Token } from '@aws-cdk/core';] *)
Definition import_core_combined : ImportDeclarationNode :=
  {| specifiers := [ImportSpecifier "Resource" "Resource" (Some (9, 17));
                    ImportSpecifier "Construct" "CoreConstruct" (Some (19, 45));
                    ImportSpecifier "Token" "Token" (Some (47, 52))];
     source_value := "@aws-cdk/core";
     import_range := (0, 76) |}.

(** [import { Construct, Construct as CoreConstruct } from '@aws-cdk/core';] *)
Definition import_core_both : ImportDeclarationNode :=
  {| specifiers := [ImportSpecifier "Construct" "Construct" (Some (9, 18));
                    ImportSpecifier "Construct" "CoreConstruct" (Some (20, 46))];
     source_value := "@aws-cdk/core";
     import_range := (0, 70) |}.

(** [import { Construct } from 'constructs';] *)
Definition import_constructs : ImportDeclarationNode :=
  {| specifiers := [ImportSpecifier "Construct" "Construct" (Some (80, 89))];
     source_value := "constructs";
     import_range := (71, 110) |}.

Definition ident (x : string) : IdentifierNode :=
  {| name := x; typeAnnotation := None |}.

(** [class Foo extends q.Construct {}], the superclass at [sc_range]. *)
Definition class_extends (q : string) (sc_range : Range) : ClassDeclarationNode :=
  {| class_name := "Foo";
     superClass := Some (MemberExpression (Identifier_expr (ident q))
                                          (Identifier_expr (ident "Construct"))
                                          (Some sc_range)) |}.

(** [scope: q.Construct], the annotation at [ann_range]. *)
Definition annotated (q : string) (ann_range : Range) : IdentifierNode :=
  {| name := "scope";
     typeAnnotation :=
       Some (TSTypeReference (TSQualifiedName (TSIdentifier q) "Construct") ann_range) |}.

End Samples.

Module QualifierSamples.
Import Samples.

(** The cache after the imports of a file that binds [Construct] and
    [CoreConstruct] from [@aws-cdk/core] and [Construct] from
    [constructs]. *)
Definition cache_all_three : imports_t :=
  importCache (globals (lint app_ts [visit_ImportDeclaration import_core_both;
                                      visit_ImportDeclaration import_constructs]
                             no_globals)).

(** [import { Construct } from '@aws-cdk/core';] *)
Definition import_core_plain : ImportDeclarationNode :=
  {| specifiers := [ImportSpecifier "Construct" "Construct" (Some (9, 18))];
     source_value := "@aws-cdk/core";
     import_range := (0, 42) |}.

(** [import { Construct as CoreConstruct } from '@aws-cdk/core';] *)
Definition import_core_alias : ImportDeclarationNode :=
  {| specifiers := [ImportSpecifier "Construct" "CoreConstruct" (Some (9, 35))];
     source_value := "@aws-cdk/core";
     import_range := (0, 59) |}.

(** [import * as cdk from 'monocdk';] *)
Definition import_unrelated : ImportDeclarationNode :=
  {| specifiers := [ImportNamespaceSpecifier "cdk" (Some (7, 15))];
     source_value := "monocdk";
     import_range := (0, 31) |}.

Definition cache_after (imports : list ImportDeclarationNode) : imports_t :=
  importCache (globals (lint app_ts (map visit_ImportDeclaration imports) no_globals)).

End QualifierSamples.

Module ReferenceSamples.
Import Samples.

(** [import * as constructs from 'constructs';] *)
Definition import_constructs_namespace : ImportDeclarationNode :=
  {| specifiers := [ImportNamespaceSpecifier "constructs" (Some (7, 22))];
     source_value := "constructs";
     import_range := (0, 41) |}.

(** [class Foo extends constructs.Construct {}], on the line below. *)
Definition class_extends_constructs : ClassDeclarationNode :=
  class_extends "constructs" (60, 80).

End ReferenceSamples.

(** ** The first version of the rule *)

(** The file opens with an earlier version of [create].  It has no cache and
    no fixer: it reports every import specifier that follows the import of
    [CoreConstruct], and the import of [CoreConstruct] itself when its line
    imports something else.  Its one module-level variable is threaded
    through the handlers. *)
Module Draft.

(** The descriptor given to [context.report]: a message and the import
    declaration. *)
Record Report : Type := {
  message : string;
  node : ImportDeclarationNode
}.

(** [let coreConstructSeen: boolean;]: [undefined] until it is first
    assigned. *)
Definition coreConstructSeen_t : Type := option bool.

(** [if (coreConstructSeen)] *)
Definition truthy (coreConstructSeen : coreConstructSeen_t) : bool :=
  match coreConstructSeen with
  | Some true => true
  | Some false | None => false
  end.

(** The body of [for (const s of node.specifiers)]. *)
Definition ImportDeclaration_body (n : ImportDeclarationNode) (s : ImportSpecifierNode)
    (coreConstructSeen : coreConstructSeen_t) : coreConstructSeen_t * list Report :=
  let after_import :=
    if truthy coreConstructSeen then [{| message := "heyhey"; node := n |}] else [] in
  if (specifier_typeName s =? "CoreConstruct")%string
  then (Some true,
        after_import
        ++ (if 1 <? Z.of_nat (length (specifiers n))
            then [{| message := "hey"; node := n |}] else []))
  else (coreConstructSeen, after_import).

Fixpoint ImportDeclaration_loop (n : ImportDeclarationNode) (rest : list ImportSpecifierNode)
    (coreConstructSeen : coreConstructSeen_t) : coreConstructSeen_t * list Report :=
  match rest with
  | [] => (coreConstructSeen, [])
  | s :: rest' =>
      let '(seen1, reports1) := ImportDeclaration_body n s coreConstructSeen in
      let '(seen2, reports2) := ImportDeclaration_loop n rest' seen1 in
      (seen2, reports1 ++ reports2)
  end.

(** The two handlers this version registers. *)
Record NodeListener : Type := {
  Program : coreConstructSeen_t -> coreConstructSeen_t * list Report;
  ImportDeclaration :
    ImportDeclarationNode -> coreConstructSeen_t -> coreConstructSeen_t * list Report
}.

(** [export function create(context)]: the context is only reported to. *)
Definition create (context : RuleContext) : NodeListener :=
  {| Program := fun _ => (Some false, []);
     ImportDeclaration := fun n => ImportDeclaration_loop n (specifiers n) |}.

(** The host calls the handler registered for the node's type, if any. *)
Definition dispatch (listener : NodeListener) (v : Visit)
    (coreConstructSeen : coreConstructSeen_t) : coreConstructSeen_t * list Report :=
  match v with
  | visit_Program => Program listener coreConstructSeen
  | visit_ImportDeclaration n => ImportDeclaration listener n coreConstructSeen
  | visit_ClassDeclaration _ | visit_Identifier _ => (coreConstructSeen, [])
  end.

Fixpoint traverse (listener : NodeListener) (vs : list Visit)
    (coreConstructSeen : coreConstructSeen_t) : coreConstructSeen_t * list Report :=
  match vs with
  | [] => (coreConstructSeen, [])
  | v :: vs' =>
      let '(seen1, reports1) := dispatch listener v coreConstructSeen in
      let '(seen2, reports2) := traverse listener vs' seen1 in
      (seen2, reports1 ++ reports2)
  end.

Definition lint (context : RuleContext) (body : list Visit)
    (coreConstructSeen : coreConstructSeen_t) : coreConstructSeen_t * list Report :=
  traverse (create context) (visit_Program :: body) coreConstructSeen.

(** The specifier is the one the first version looks for. *)
Definition imports_CoreConstruct (s : ImportSpecifierNode) : bool :=
  (specifier_typeName s =? "CoreConstruct")%string.

End Draft.

(** ** More vocabulary *)

(** The bindings a visit records in a file the rule handles. *)
Definition bindings_of_visit (context : RuleContext) (v : Visit) : imports_t :=
  match v with
  | visit_ImportDeclaration n => map (recorded_import context n) (specifiers n)
  | visit_Program | visit_ClassDeclaration _ | visit_Identifier _ => []
  end.

(** The report is an isolation violation. *)
Definition is_isolation_report (r : Report) : bool :=
  (message r =? importOrderMessage)%string.

(** The key under which the specifier [s] of the declaration [n] is
    recorded. *)
Definition composite_key (n : ImportDeclarationNode) (s : ImportSpecifierNode) : string :=
  String.concat EmptyString [source_value n; "."; local_name s].

(** The listener of a file the rule skips. *)
Definition no_listener : NodeListener :=
  {| Program := None; ImportDeclaration := None;
     ClassDeclaration := None; Identifier := None |}.

(** * Facts *)

(** ** Facts about the helpers *)

Lemma at_index_app_last {A : Type} (l : list A) (x : A) :
  at_index (l ++ [x]) (Z.of_nat (length (l ++ [x])) - 1) = Some x.
Proof.
  unfold at_index. rewrite length_app. simpl length.
  destruct (Z.of_nat (length l + 1) - 1 <? 0) eqn:E.
  - apply Z.ltb_lt in E. lia.
  - replace (Z.to_nat (Z.of_nat (length l + 1) - 1)) with (length l) by lia.
    rewrite nth_error_app2 by lia. rewrite Nat.sub_diag. reflexivity.
Qed.

Lemma lastImport_of_nonempty (imports : imports_t) :
  imports <> [] -> exists lastImport, lastImport_of imports = Some lastImport.
Proof.
  intros H. destruct (exists_last H) as [l [x ->]].
  exists x. apply at_index_app_last.
Qed.

Lemma lastImport_of_none (imports : imports_t) :
  lastImport_of imports = None -> imports = [].
Proof.
  intros H. destruct imports as [|i l]; [reflexivity|].
  destruct (@lastImport_of_nonempty (i :: l)) as [x Hx]; [discriminate|].
  congruence.
Qed.

Lemma findImport_some_nonempty (imports : imports_t) (x : string) :
  findImport imports x <> None -> imports <> [].
Proof. destruct imports; simpl; congruence. Qed.

Lemma imports_of_record (context : RuleContext) (cache : imports_t) (i : Import) :
  imports_of context (record cache i)
  = imports_of context cache
    ++ (if (fileName i =? getFilename context)%string then [i] else []).
Proof. unfold imports_of, record. rewrite filter_app. reflexivity. Qed.

Lemma imports_of_record_other (context : RuleContext) (cache : imports_t) (i : Import) :
  fileName i <> getFilename context ->
  imports_of context (record cache i) = imports_of context cache.
Proof.
  intros H. rewrite imports_of_record.
  apply String.eqb_neq in H. rewrite H. apply app_nil_r.
Qed.

Lemma messages_differ : qualifierMessage <> importOrderMessage.
Proof. vm_compute. discriminate. Qed.

Lemma report_outcome (context : RuleContext) (n : Node) (r : Range) (g : Globals) :
  report context n r g
  = {| globals := g;
       reports := [{| message := qualifierMessage; node := n;
                      fixes := report_fix context (importCache g) r |}];
       value := inr tt |}.
Proof. reflexivity. Qed.

Lemma reportImportOrderViolations_globals (context : RuleContext) (g : Globals) :
  globals (reportImportOrderViolations context g) = g.
Proof.
  unfold reportImportOrderViolations, bind, get_importOrderViolation, get_importCache. simpl.
  destruct (importOrderViolation g) as [v|]; simpl; [|reflexivity].
  destruct (importOrder_fix context (importCache g) v); reflexivity.
Qed.

Lemma reportImportOrderViolations_outcome (context : RuleContext) (g : Globals) :
  reportImportOrderViolations context g
  = match importOrderViolation g with
    | Some violation =>
        match importOrder_fix context (importCache g) violation with
        | inr fs => {| globals := g;
                       reports := [{| message := importOrderMessage;
                                      node := ImportDeclaration_node (violation_node violation);
                                      fixes := fs |}];
                       value := inr tt |}
        | inl e => {| globals := g; reports := []; value := inl e |}
        end
    | None => {| globals := g; reports := []; value := inr tt |}
    end.
Proof.
  unfold reportImportOrderViolations, bind, get_importOrderViolation, get_importCache. simpl.
  destruct (importOrderViolation g) as [v|]; simpl; [|reflexivity].
  destruct (importOrder_fix context (importCache g) v); reflexivity.
Qed.

Lemma keeps_globals_ret {A : Type} (a : A) : keeps_globals (ret a).
Proof. intros g. reflexivity. Qed.

Lemma keeps_globals_bind {A B : Type} (m : Rule A) (f : A -> Rule B) :
  keeps_globals m -> (forall a, keeps_globals (f a)) -> keeps_globals (bind m f).
Proof.
  intros Hm Hf g. unfold bind.
  destruct (value (m g)) as [e|a]; simpl.
  - apply Hm.
  - rewrite Hf. apply Hm.
Qed.

Lemma keeps_globals_report (context : RuleContext) (n : Node) (r : Range) :
  keeps_globals (report context n r).
Proof. intros g. reflexivity. Qed.

Lemma keeps_globals_reportImportOrderViolations (context : RuleContext) :
  keeps_globals (reportImportOrderViolations context).
Proof. intros g. apply reportImportOrderViolations_globals. Qed.

Create HintDb keeps.

#[local] Hint Resolve keeps_globals_ret keeps_globals_bind keeps_globals_report
  keeps_globals_reportImportOrderViolations : keeps.

Lemma ClassDeclaration_handler_globals (context : RuleContext) (n : ClassDeclarationNode) :
  keeps_globals (ClassDeclaration_handler context n).
Proof.
  unfold ClassDeclaration_handler.
  destruct (superClass n) as [[id|obj property sc_range|]|]; auto with keeps.
  apply keeps_globals_bind.
  - destruct (baseClass_of property) as [b|]; auto with keeps.
    destruct sc_range as [r|]; auto with keeps.
    destruct (b =? "Construct")%string; auto with keeps.
  - intros _. destruct (baseClass_of property) as [b|]; auto with keeps.
    destruct (b =? "CoreConstruct")%string; auto with keeps.
Qed.

Lemma Identifier_handler_globals (context : RuleContext) (n : IdentifierNode) :
  keeps_globals (Identifier_handler context n).
Proof.
  unfold Identifier_handler.
  apply keeps_globals_bind.
  - destruct (typeAnnotation n) as [ann|]; auto with keeps.
    destruct (is_qualified_Construct ann); auto with keeps.
  - intros _. destruct (name n =? "CoreConstruct")%string; auto with keeps.
Qed.

(** ** The import handler, iteration by iteration *)

Lemma ImportDeclaration_body_outcome (context : RuleContext) (n : ImportDeclarationNode)
    (i : Z) (s : ImportSpecifierNode) (g : Globals) :
  ImportDeclaration_body context n i s g
  = match pending_after n i s (importOrderViolation g) with
    | inl e => {| globals := g; reports := []; value := inl e |}
    | inr p => {| globals := {| importCache := record (importCache g)
                                                      (recorded_import context n s);
                                importOrderViolation := p |};
                  reports := []; value := inr tt |}
    end.
Proof.
  unfold ImportDeclaration_body, pending_after.
  destruct (local_name s =? "CoreConstruct")%string; [|reflexivity].
  destruct (specifier_range s) as [r|]; [|reflexivity].
  destruct (1 <? Z.of_nat (length (specifiers n))); [|reflexivity].
  destruct (violation_range_at n i r) as [e|del]; reflexivity.
Qed.

(** The import handler never reports. *)
Lemma ImportDeclaration_loop_reports (context : RuleContext) (n : ImportDeclarationNode)
    (rest : list ImportSpecifierNode) :
  forall i g, reports (ImportDeclaration_loop context n i rest g) = [].
Proof.
  induction rest as [|s rest IH]; intros i g; [reflexivity|].
  simpl. unfold bind. rewrite ImportDeclaration_body_outcome.
  destruct (pending_after n i s (importOrderViolation g)); simpl; [reflexivity|].
  apply IH.
Qed.

(** Specifiers that do not bind [CoreConstruct] are recorded and leave the
    pending slot alone. *)
Lemma ImportDeclaration_loop_no_alias (context : RuleContext) (n : ImportDeclarationNode)
    (rest : list ImportSpecifierNode) :
  Forall (fun s => local_name s <> "CoreConstruct") rest ->
  forall i g,
    ImportDeclaration_loop context n i rest g
    = {| globals := {| importCache := importCache g ++ map (recorded_import context n) rest;
                       importOrderViolation := importOrderViolation g |};
         reports := []; value := inr tt |}.
Proof.
  induction 1 as [|s rest Hs _ IH]; intros i g.
  - simpl. rewrite app_nil_r. destruct g; reflexivity.
  - simpl. unfold bind. rewrite ImportDeclaration_body_outcome.
    unfold pending_after. apply String.eqb_neq in Hs. rewrite Hs. simpl.
    rewrite IH. simpl. unfold record. rewrite <- app_assoc. reflexivity.
Qed.

Lemma at_index_app_next {A : Type} (done : list A) (x : A) (rest : list A) :
  at_index (done ++ x :: rest) (Z.of_nat (length done)) = Some x.
Proof.
  unfold at_index.
  destruct (Z.of_nat (length done) <? 0) eqn:E; [apply Z.ltb_lt in E; lia|].
  rewrite Nat2Z.id. rewrite nth_error_app2 by lia. rewrite Nat.sub_diag. reflexivity.
Qed.

(** The range computed for the specifier that follows [done] in the list. *)
Lemma violation_range_at_position (n : ImportDeclarationNode)
    (done : list ImportSpecifierNode) (s : ImportSpecifierNode)
    (post : list ImportSpecifierNode) (r : Range) :
  specifiers n = done ++ s :: post ->
  violation_range_at n (Z.of_nat (length done)) r
  = match post with
    | [] => inr r
    | next :: _ =>
        match specifier_range next with
        | Some next_range => inr (fst r, fst next_range)
        | None => inl range_of_undefined
        end
    end.
Proof.
  intros Hn. unfold violation_range_at. rewrite Hn.
  rewrite length_app. simpl length.
  destruct post as [|next post'].
  - simpl length. replace (Z.of_nat (length done + 1) - 1) with (Z.of_nat (length done)) by lia.
    rewrite Z.eqb_refl. reflexivity.
  - simpl length.
    destruct (Z.of_nat (length done) =? Z.of_nat (length done + S (S (length post'))) - 1) eqn:E;
      [apply Z.eqb_eq in E; lia|].
    replace (Z.of_nat (length done) + 1) with (Z.of_nat (length (done ++ [s])))
      by (rewrite length_app; simpl; lia).
    replace (done ++ s :: next :: post') with ((done ++ [s]) ++ next :: post')
      by (rewrite <- app_assoc; reflexivity).
    rewrite at_index_app_next. reflexivity.
Qed.

(** With ranges on all specifiers, an iteration does not throw. *)
Lemma pending_after_ranged (n : ImportDeclarationNode)
    (done : list ImportSpecifierNode) (s : ImportSpecifierNode)
    (post : list ImportSpecifierNode) (pending : option ImportOrderViolation) :
  specifiers n = done ++ s :: post ->
  Forall has_range (specifiers n) ->
  exists p, pending_after n (Z.of_nat (length done)) s pending = inr p.
Proof.
  intros Hn Hr. unfold pending_after.
  destruct (local_name s =? "CoreConstruct")%string; [|eauto].
  destruct (specifier_range s) as [r|]; [|eauto].
  destruct (1 <? Z.of_nat (length (specifiers n))); [|eauto].
  rewrite (@violation_range_at_position n done s post r Hn).
  destruct post as [|next post']; [eauto|].
  assert (Hnext : has_range next).
  { rewrite Hn in Hr. apply Forall_app in Hr. destruct Hr as [_ Hr].
    inversion Hr as [|? ? _ Hr']. inversion Hr'. assumption. }
  unfold has_range in Hnext. destruct (specifier_range next); [eauto|congruence].
Qed.

Section LastAlias.

Variable context : RuleContext.
Variable n : ImportDeclarationNode.
Variables (s : ImportSpecifierNode) (post : list ImportSpecifierNode) (r : Range).

Hypothesis ranged : Forall has_range (specifiers n).
Hypothesis s_alias : local_name s = "CoreConstruct".
Hypothesis s_range : specifier_range s = Some r.
Hypothesis several : (1 < length (specifiers n))%nat.
Hypothesis s_last_alias : Forall (fun s' => local_name s' <> "CoreConstruct") post.

(** The loop, started anywhere before the last specifier that binds
    [CoreConstruct], ends with that specifier's violation pending. *)
Lemma ImportDeclaration_loop_last_alias (pre : list ImportSpecifierNode) :
  forall done g,
    specifiers n = done ++ pre ++ s :: post ->
    ImportDeclaration_loop context n (Z.of_nat (length done)) (pre ++ s :: post) g
    = {| globals :=
           {| importCache :=
                importCache g ++ map (recorded_import context n) (pre ++ s :: post);
              importOrderViolation :=
                Some {| violation_node := n; violation_range := delete_range r post |} |};
         reports := []; value := inr tt |}.
Proof.
  induction pre as [|p pre IH]; intros done g Hn.
  - simpl. unfold bind. rewrite ImportDeclaration_body_outcome.
    unfold pending_after. rewrite s_alias, s_range. simpl.
    replace (1 <? Z.of_nat (length (specifiers n))) with true
      by (symmetry; apply Z.ltb_lt; lia).
    rewrite (@violation_range_at_position n done s post r Hn).
    assert (Hdel : match post with
                   | [] => inr r
                   | next :: _ =>
                       match specifier_range next with
                       | Some next_range => inr (fst r, fst next_range)
                       | None => inl range_of_undefined
                       end
                   end = (inr (delete_range r post) : TypeError + Range)).
    { destruct post as [|next post']; [reflexivity|]. simpl.
      assert (Hnext : has_range next).
      { rewrite Hn in ranged. apply Forall_app in ranged. destruct ranged as [_ Hr].
        inversion Hr as [|? ? _ Hr']. inversion Hr'. assumption. }
      unfold has_range in Hnext. destruct (specifier_range next); [reflexivity|congruence]. }
    rewrite Hdel. simpl.
    rewrite ImportDeclaration_loop_no_alias by assumption. simpl.
    unfold record. rewrite <- app_assoc. reflexivity.
  - simpl. unfold bind. rewrite ImportDeclaration_body_outcome.
    destruct (@pending_after_ranged n done p (pre ++ s :: post) (importOrderViolation g)
                Hn ranged) as [p0 Hp0].
    rewrite Hp0. simpl.
    replace (Z.of_nat (length done) + 1) with (Z.of_nat (length (done ++ [p])))
      by (rewrite length_app; simpl; lia).
    rewrite IH by (rewrite Hn, <- app_assoc; reflexivity).
    simpl. unfold record. rewrite <- app_assoc. reflexivity.
Qed.

(** The import handler on such a declaration, whatever was pending
    before. *)
Lemma ImportDeclaration_handler_last_alias (pre : list ImportSpecifierNode) (g : Globals) :
  specifiers n = pre ++ s :: post ->
  ImportDeclaration_handler context n g
  = {| globals :=
         {| importCache := importCache g ++ map (recorded_import context n) (specifiers n);
            importOrderViolation :=
              Some {| violation_node := n; violation_range := delete_range r post |} |};
       reports := []; value := inr tt |}.
Proof.
  intros Hn. unfold ImportDeclaration_handler.
  rewrite Hn. apply (@ImportDeclaration_loop_last_alias pre [] g Hn).
Qed.

End LastAlias.

(** ** Ranges in document order *)

Lemma ForallOrdPairs_split {A : Type} (R : A -> A -> Prop) (l1 : list A) (x : A) (l2 : list A) :
  ForallOrdPairs R (l1 ++ x :: l2) ->
  Forall (fun y => R y x) l1 /\ Forall (R x) l2 /\ ForallOrdPairs R l2.
Proof.
  induction l1 as [|a l1 IH]; simpl; intros H.
  - inversion H; subst. auto.
  - inversion H as [|? ? Ha Hl]; subst.
    destruct (IH Hl) as [H1 [H2 H3]].
    repeat split; auto.
    constructor; auto.
    rewrite Forall_forall in Ha. apply Ha. apply in_or_app. right. left. reflexivity.
Qed.

(** The stored range shares no character with any other specifier of the
    declaration. *)
Lemma delete_range_apart (pre : list ImportSpecifierNode) (s : ImportSpecifierNode)
    (post : list ImportSpecifierNode) (r : Range) :
  specifier_range s = Some r ->
  in_document_order (pre ++ s :: post) ->
  Forall (fun other => forall r', specifier_range other = Some r' ->
                                  ranges_apart (delete_range r post) r')
         (pre ++ post).
Proof.
  intros Hs [Hfwd Hord].
  destruct (ForallOrdPairs_split _ _ _ Hord) as [Hpre [Hpost Hpost']].
  apply Forall_app in Hfwd. destruct Hfwd as [_ Hfwd].
  inversion Hfwd as [|? ? Hs_fwd Hpost_fwd]; subst.
  assert (Hstart : fst (delete_range r post) = fst r).
  { unfold delete_range. destruct post as [|next ?]; [reflexivity|].
    destruct (specifier_range next); reflexivity. }
  apply Forall_app. split.
  - rewrite Forall_forall in *. intros other Hin r' Hr'.
    left. rewrite Hstart. exact (Hpre other Hin r' r Hr' Hs).
  - destruct post as [|next post']; [constructor|].
    unfold delete_range.
    destruct (specifier_range next) as [nr|] eqn:Hnext.
    + simpl. inversion Hpost' as [|? ? Hnext_ord _]; subst.
      inversion Hpost_fwd as [|? ? Hnext_fwd _]; subst.
      constructor.
      * intros r' Hr'. right. simpl. rewrite Hnext in Hr'. inversion Hr'. lia.
      * rewrite Forall_forall in *. intros other Hin r' Hr'. right. simpl.
        specialize (Hnext_ord other Hin nr r' Hnext Hr').
        specialize (Hnext_fwd nr Hnext). lia.
    + rewrite Forall_forall in *. intros other Hin r' Hr'. right.
      exact (Hpost other Hin r r' Hs Hr').
Qed.

(** ** Text under a range *)

Lemma substring_empty (a m : nat) : substring a m EmptyString = EmptyString.
Proof. destruct a, m; reflexivity. Qed.

(** Taking [k1 + k2] characters is taking [k1], then [k2] more. *)
Lemma substring_split (src : string) :
  forall a k1 k2 : nat,
    substring a (k1 + k2) src
    = (substring a k1 src ++ substring (a + k1) k2 src)%string.
Proof.
  induction src as [|c src IH]; intros a k1 k2.
  - rewrite !substring_empty. reflexivity.
  - destruct a as [|a].
    + destruct k1 as [|k1]; simpl; [reflexivity|].
      rewrite IH. reflexivity.
    + simpl. apply IH.
Qed.

(** The text from the start of one range to the start of a later one is the
    text of the first range, then the text between the two. *)
Lemma text_in_until_next (src : string) (r next_range : Range) :
  0 <= fst r <= snd r -> snd r <= fst next_range ->
  text_in src (fst r, fst next_range)
  = (text_in src r ++ text_in src (snd r, fst next_range))%string.
Proof.
  intros Hr Hn. unfold text_in. simpl.
  replace (Z.to_nat (fst next_range - fst r))
    with (Z.to_nat (snd r - fst r) + Z.to_nat (fst next_range - snd r))%nat by lia.
  rewrite substring_split. f_equal. f_equal. lia.
Qed.

(** ** Facts about sequencing *)

Lemma bind_reports {A B : Type} (m : Rule A) (f : A -> Rule B) (g : Globals) :
  reports (bind m f g)
  = reports (m g) ++ match value (m g) with
                     | inl _ => []
                     | inr a => reports (f a (globals (m g)))
                     end.
Proof.
  unfold bind. destruct (value (m g)); simpl; [rewrite app_nil_r|]; reflexivity.
Qed.

Lemma bind_value {A B : Type} (m : Rule A) (f : A -> Rule B) (g : Globals) :
  value (bind m f g)
  = match value (m g) with
    | inl e => inl e
    | inr a => value (f a (globals (m g)))
    end.
Proof. unfold bind. destruct (value (m g)); reflexivity. Qed.

Lemma bind_globals {A B : Type} (m : Rule A) (f : A -> Rule B) (g : Globals) :
  globals (bind m f g)
  = match value (m g) with
    | inl _ => globals (m g)
    | inr a => globals (f a (globals (m g)))
    end.
Proof. unfold bind. destruct (value (m g)); reflexivity. Qed.

Lemma bind_assoc {A B C : Type} (m : Rule A) (f : A -> Rule B) (k : B -> Rule C)
    (g : Globals) :
  bind (bind m f) k g = bind m (fun a => bind (f a) k) g.
Proof.
  unfold bind. destruct (value (m g)) as [e|a]; simpl; [reflexivity|].
  destruct (value (f a (globals (m g)))) as [e|b]; simpl; [reflexivity|].
  rewrite app_assoc. reflexivity.
Qed.

Lemma bind_ext {A B : Type} (m : Rule A) (f f' : A -> Rule B) (g : Globals) :
  (forall a g', f a g' = f' a g') -> bind m f g = bind m f' g.
Proof.
  intros H. unfold bind. destruct (value (m g)); [reflexivity|].
  rewrite H. reflexivity.
Qed.

Lemma traverse_app (listener : NodeListener) (vs1 vs2 : list Visit) :
  forall g,
    traverse listener (vs1 ++ vs2) g
    = bind (traverse listener vs1) (fun _ => traverse listener vs2) g.
Proof.
  induction vs1 as [|v vs1 IH]; intros g.
  - simpl. unfold bind, ret. simpl. destruct (traverse listener vs2 g); reflexivity.
  - simpl. rewrite bind_assoc. apply bind_ext. intros _ g'. apply IH.
Qed.

Lemma traverse_cons (listener : NodeListener) (v : Visit) (vs : list Visit) (g : Globals) :
  traverse listener (v :: vs) g
  = bind (dispatch listener v) (fun _ => traverse listener vs) g.
Proof. reflexivity. Qed.

(** ** The handlers a file gets *)

Lemma create_core (context : RuleContext) :
  includes (getFilename context) "@aws-cdk/core" = true ->
  create context = {| Program := None; ImportDeclaration := None;
                      ClassDeclaration := None; Identifier := None |}.
Proof. intros H. unfold create. rewrite H. reflexivity. Qed.

Lemma create_other (context : RuleContext) :
  includes (getFilename context) "@aws-cdk/core" = false ->
  create context = {| Program := Some Program_handler;
                      ImportDeclaration := Some (ImportDeclaration_handler context);
                      ClassDeclaration := Some (ClassDeclaration_handler context);
                      Identifier := Some (Identifier_handler context) |}.
Proof. intros H. unfold create. rewrite H. reflexivity. Qed.

Lemma dispatch_reference_globals (context : RuleContext) (v : Visit) :
  is_reference_visit v = true -> keeps_globals (dispatch (create context) v).
Proof.
  intros Hv. unfold create.
  destruct (includes (getFilename context) "@aws-cdk/core");
    destruct v; try discriminate; simpl; auto with keeps.
  - apply ClassDeclaration_handler_globals.
  - apply Identifier_handler_globals.
Qed.

Lemma traverse_reference_globals (context : RuleContext) (vs : list Visit) :
  forallb is_reference_visit vs = true -> keeps_globals (traverse (create context) vs).
Proof.
  induction vs as [|v vs IH]; simpl; intros H; auto with keeps.
  apply andb_true_iff in H. destruct H as [Hv Hvs].
  apply keeps_globals_bind; auto using dispatch_reference_globals.
Qed.

(** ** What the handlers report *)

Lemma ClassDeclaration_handler_reports (context : RuleContext) (n : ClassDeclarationNode)
    (g : Globals) :
  reports (ClassDeclaration_handler context n g)
  = class_qualifier_reports context n g
    ++ (if class_uses_alias n then reports (reportImportOrderViolations context g) else []).
Proof.
  unfold ClassDeclaration_handler, class_qualifier_reports, class_uses_alias.
  destruct (superClass n) as [[id|obj property sc_range|]|]; try reflexivity.
  rewrite bind_reports.
  destruct (baseClass_of property) as [b|]; [|destruct sc_range; reflexivity].
  destruct sc_range as [r|].
  - destruct (b =? "Construct")%string; simpl;
      destruct (b =? "CoreConstruct")%string; reflexivity.
  - simpl. destruct (b =? "CoreConstruct")%string; reflexivity.
Qed.

Lemma ClassDeclaration_handler_value (context : RuleContext) (n : ClassDeclarationNode)
    (g : Globals) :
  value (ClassDeclaration_handler context n g)
  = if class_uses_alias n then value (reportImportOrderViolations context g) else inr tt.
Proof.
  unfold ClassDeclaration_handler, class_uses_alias.
  destruct (superClass n) as [[id|obj property sc_range|]|]; try reflexivity.
  rewrite bind_value.
  destruct (baseClass_of property) as [b|]; [|destruct sc_range; reflexivity].
  destruct sc_range as [r|].
  - destruct (b =? "Construct")%string; simpl;
      destruct (b =? "CoreConstruct")%string; reflexivity.
  - simpl. destruct (b =? "CoreConstruct")%string; reflexivity.
Qed.

Lemma Identifier_handler_reports (context : RuleContext) (n : IdentifierNode) (g : Globals) :
  reports (Identifier_handler context n g)
  = identifier_qualifier_reports context n g
    ++ (if (name n =? "CoreConstruct")%string
        then reports (reportImportOrderViolations context g) else []).
Proof.
  unfold Identifier_handler, identifier_qualifier_reports.
  rewrite bind_reports.
  destruct (typeAnnotation n) as [ann|]; simpl.
  - destruct (is_qualified_Construct ann); simpl;
      destruct (name n =? "CoreConstruct")%string; reflexivity.
  - destruct (name n =? "CoreConstruct")%string; reflexivity.
Qed.

Lemma Identifier_handler_value (context : RuleContext) (n : IdentifierNode) (g : Globals) :
  value (Identifier_handler context n g)
  = if (name n =? "CoreConstruct")%string
    then value (reportImportOrderViolations context g) else inr tt.
Proof.
  unfold Identifier_handler. rewrite bind_value.
  destruct (typeAnnotation n) as [ann|]; simpl.
  - destruct (is_qualified_Construct ann); simpl;
      destruct (name n =? "CoreConstruct")%string; reflexivity.
  - destruct (name n =? "CoreConstruct")%string; reflexivity.
Qed.

Lemma reportImportOrderViolations_reports (context : RuleContext) (g : Globals) (r : Report) :
  In r (reports (reportImportOrderViolations context g)) ->
  exists v, importOrderViolation g = Some v /\ flushes v r.
Proof.
  rewrite reportImportOrderViolations_outcome.
  destruct (importOrderViolation g) as [v|]; [|simpl; tauto].
  unfold importOrder_fix.
  destruct (lastImport_of (imports_of context (importCache g))) as [lastImport|];
    simpl; [|tauto].
  intros [<-|[]]. exists v. split; [reflexivity|].
  repeat split. exists (importNode lastImport). reflexivity.
Qed.

(** ** The pending violation has an anchor *)

Lemma imports_of_record_own (context : RuleContext) (cache : imports_t)
    (n : ImportDeclarationNode) (s : ImportSpecifierNode) :
  imports_of context (record cache (recorded_import context n s))
  = imports_of context cache ++ [recorded_import context n s].
Proof. rewrite imports_of_record. simpl. rewrite String.eqb_refl. reflexivity. Qed.

Lemma pending_after_throws (n : ImportDeclarationNode) (i : Z) (s : ImportSpecifierNode)
    (pending : option ImportOrderViolation) (e : TypeError) :
  pending_after n i s pending = inl e -> e = range_of_undefined.
Proof.
  unfold pending_after, violation_range_at.
  destruct (local_name s =? "CoreConstruct")%string; [|discriminate].
  destruct (specifier_range s) as [r|]; [|discriminate].
  destruct (1 <? Z.of_nat (length (specifiers n))); [|discriminate].
  destruct (i =? Z.of_nat (length (specifiers n)) - 1); [discriminate|].
  destruct (at_index (specifiers n) (i + 1)) as [next|]; [|congruence].
  destruct (specifier_range next); [discriminate|congruence].
Qed.

Lemma ImportDeclaration_loop_anchored (context : RuleContext) (n : ImportDeclarationNode)
    (rest : list ImportSpecifierNode) :
  forall i g,
    anchored context g ->
    anchored context (globals (ImportDeclaration_loop context n i rest g))
    /\ value (ImportDeclaration_loop context n i rest g) <> inl importNode_of_undefined.
Proof.
  induction rest as [|s rest IH]; intros i g Hg.
  - simpl. split; [assumption|discriminate].
  - simpl. rewrite bind_globals, bind_value. rewrite ImportDeclaration_body_outcome.
    destruct (pending_after n i s (importOrderViolation g)) as [e|p] eqn:E; simpl.
    + split; [assumption|].
      rewrite (pending_after_throws _ _ _ _ E). discriminate.
    + apply IH. intros _. simpl. rewrite imports_of_record_own.
      intros H. apply app_eq_nil in H. destruct H as [_ H]. discriminate.
Qed.

Lemma reportImportOrderViolations_anchored (context : RuleContext) (g : Globals) :
  anchored context g -> value (reportImportOrderViolations context g) = inr tt.
Proof.
  intros Hg. rewrite reportImportOrderViolations_outcome.
  destruct (importOrderViolation g) as [v|] eqn:E; [|reflexivity].
  unfold importOrder_fix.
  destruct (lastImport_of (imports_of context (importCache g))) as [lastImport|] eqn:L;
    [reflexivity|].
  exfalso. apply Hg; [rewrite E; discriminate|].
  apply lastImport_of_none. assumption.
Qed.

Lemma dispatch_anchored (context : RuleContext) (v : Visit) (g : Globals) :
  includes (getFilename context) "@aws-cdk/core" = false ->
  anchored context g ->
  anchored context (globals (dispatch (create context) v g))
  /\ value (dispatch (create context) v g) <> inl importNode_of_undefined.
Proof.
  intros Hfile Hg. rewrite (create_other _ Hfile).
  destruct v as [|n|n|n]; simpl.
  - split; [|discriminate]. intros H. simpl in H. congruence.
  - apply ImportDeclaration_loop_anchored. assumption.
  - rewrite ClassDeclaration_handler_globals, ClassDeclaration_handler_value.
    split; [assumption|].
    destruct (class_uses_alias n); [|discriminate].
    rewrite reportImportOrderViolations_anchored by assumption. discriminate.
  - rewrite Identifier_handler_globals, Identifier_handler_value.
    split; [assumption|].
    destruct (name n =? "CoreConstruct")%string; [|discriminate].
    rewrite reportImportOrderViolations_anchored by assumption. discriminate.
Qed.

Lemma traverse_anchored (context : RuleContext) (vs : list Visit) :
  includes (getFilename context) "@aws-cdk/core" = false ->
  forall g,
    anchored context g ->
    anchored context (globals (traverse (create context) vs g))
    /\ value (traverse (create context) vs g) <> inl importNode_of_undefined.
Proof.
  intros Hfile. induction vs as [|v vs IH]; intros g Hg.
  - simpl. split; [assumption|discriminate].
  - simpl. rewrite bind_globals, bind_value.
    destruct (dispatch_anchored v Hfile Hg) as [Hg' Hv].
    destruct (value (dispatch (create context) v g)) as [e|[]].
    + split; assumption.
    + apply IH. assumption.
Qed.

(** A file the rule skips is traversed without effect. *)
Lemma traverse_core (context : RuleContext) (vs : list Visit) :
  includes (getFilename context) "@aws-cdk/core" = true ->
  forall g, traverse (create context) vs g = ret tt g.
Proof.
  intros Hfile. rewrite (create_core _ Hfile).
  induction vs as [|v vs IH]; intros g; [reflexivity|].
  simpl. unfold bind. destruct v; simpl; rewrite IH; reflexivity.
Qed.

(** ** Only the file's own slice of the cache is read *)

Section FileLocal.

Variable context : RuleContext.

Lemma file_local_ret {A : Type} (a : A) : file_local context (ret a).
Proof. intros g1 g2 H. simpl. auto. Qed.

Lemma file_local_throw {A : Type} (e : TypeError) : file_local context (@throw A e).
Proof. intros g1 g2 H. simpl. auto. Qed.

Lemma file_local_lift {A : Type} (r : TypeError + A) : file_local context (lift r).
Proof. destruct r; [apply file_local_throw|apply file_local_ret]. Qed.

Lemma file_local_bind {A B : Type} (m : Rule A) (f : A -> Rule B) :
  file_local context m -> (forall a, file_local context (f a)) ->
  file_local context (bind m f).
Proof.
  intros Hm Hf g1 g2 H.
  destruct (Hm g1 g2 H) as [Hr [Hv Hg]].
  rewrite !bind_reports, !bind_value, !bind_globals.
  rewrite <- Hv, <- Hr.
  destruct (value (m g1)) as [e|a].
  - auto.
  - destruct (Hf a _ _ Hg) as [Hr' [Hv' Hg']].
    rewrite Hr'. auto.
Qed.

Lemma file_local_set (v : option ImportOrderViolation) :
  file_local context (set_importOrderViolation v).
Proof. intros g1 g2 [Hc _]. simpl. repeat split. assumption. Qed.

Lemma file_local_record (i : Import) : file_local context (importCache_record i).
Proof.
  intros g1 g2 [Hc Hp]. simpl. repeat split; simpl; [|assumption].
  rewrite !imports_of_record, Hc. reflexivity.
Qed.

Lemma report_fix_slice (cache1 cache2 : imports_t) (r : Range) :
  imports_of context cache1 = imports_of context cache2 ->
  report_fix context cache1 r = report_fix context cache2 r.
Proof. intros H. unfold report_fix. rewrite H. reflexivity. Qed.

Lemma importOrder_fix_slice (cache1 cache2 : imports_t) (v : ImportOrderViolation) :
  imports_of context cache1 = imports_of context cache2 ->
  importOrder_fix context cache1 v = importOrder_fix context cache2 v.
Proof. intros H. unfold importOrder_fix. rewrite H. reflexivity. Qed.

Lemma file_local_report (n : Node) (r : Range) : file_local context (report context n r).
Proof.
  intros g1 g2 [Hc Hp]. rewrite !report_outcome. simpl.
  rewrite (report_fix_slice _ _ r Hc). repeat split; assumption.
Qed.

Lemma file_local_reportImportOrderViolations :
  file_local context (reportImportOrderViolations context).
Proof.
  intros g1 g2 [Hc Hp]. rewrite !reportImportOrderViolations_outcome.
  rewrite <- Hp. destruct (importOrderViolation g1) as [v|] eqn:E.
  - rewrite (importOrder_fix_slice _ _ v Hc).
    destruct (importOrder_fix context (importCache g2) v); simpl;
      repeat split; try assumption; congruence.
  - simpl. repeat split; try assumption; congruence.
Qed.

Lemma file_local_body (n : ImportDeclarationNode) (i : Z) (s : ImportSpecifierNode) :
  file_local context (ImportDeclaration_body context n i s).
Proof.
  unfold ImportDeclaration_body. apply file_local_bind.
  - destruct (local_name s =? "CoreConstruct")%string; [|apply file_local_ret].
    destruct (specifier_range s) as [r|]; [|apply file_local_ret].
    destruct (1 <? Z.of_nat (length (specifiers n))); [|apply file_local_ret].
    apply file_local_bind; [apply file_local_lift|].
    intros del. apply file_local_set.
  - intros _. apply file_local_record.
Qed.

Lemma file_local_loop (n : ImportDeclarationNode) (rest : list ImportSpecifierNode) :
  forall i, file_local context (ImportDeclaration_loop context n i rest).
Proof.
  induction rest as [|s rest IH]; intros i; simpl.
  - apply file_local_ret.
  - apply file_local_bind; [apply file_local_body|]. intros _. apply IH.
Qed.

Lemma file_local_ClassDeclaration (n : ClassDeclarationNode) :
  file_local context (ClassDeclaration_handler context n).
Proof.
  unfold ClassDeclaration_handler.
  destruct (superClass n) as [[id|obj property sc_range|]|]; try apply file_local_ret.
  apply file_local_bind.
  - destruct (baseClass_of property) as [b|]; [|apply file_local_ret].
    destruct sc_range as [r|]; [|apply file_local_ret].
    destruct (b =? "Construct")%string; [apply file_local_report|apply file_local_ret].
  - intros _. destruct (baseClass_of property) as [b|]; [|apply file_local_ret].
    destruct (b =? "CoreConstruct")%string;
      [apply file_local_reportImportOrderViolations|apply file_local_ret].
Qed.

Lemma file_local_Identifier (n : IdentifierNode) :
  file_local context (Identifier_handler context n).
Proof.
  unfold Identifier_handler. apply file_local_bind.
  - destruct (typeAnnotation n) as [ann|]; [|apply file_local_ret].
    destruct (is_qualified_Construct ann); [apply file_local_report|apply file_local_ret].
  - intros _. destruct (name n =? "CoreConstruct")%string;
      [apply file_local_reportImportOrderViolations|apply file_local_ret].
Qed.

Lemma file_local_dispatch (v : Visit) : file_local context (dispatch (create context) v).
Proof.
  unfold create. destruct (includes (getFilename context) "@aws-cdk/core").
  - destruct v; apply file_local_ret.
  - destruct v; simpl.
    + apply file_local_set.
    + apply file_local_loop.
    + apply file_local_ClassDeclaration.
    + apply file_local_Identifier.
Qed.

Lemma file_local_traverse (vs : list Visit) :
  file_local context (traverse (create context) vs).
Proof.
  induction vs as [|v vs IH]; simpl.
  - apply file_local_ret.
  - apply file_local_bind; [apply file_local_dispatch|]. intros _. exact IH.
Qed.

End FileLocal.

(** ** The two kinds of report *)

Lemma class_qualifier_reports_kind (context : RuleContext) (n : ClassDeclarationNode)
    (g : Globals) (r : Report) :
  In r (class_qualifier_reports context n g) ->
  exists rg, r = qualifier_report context g (ClassDeclaration_node n) rg.
Proof.
  unfold class_qualifier_reports.
  destruct (superClass n) as [[id|obj property [rg|]|]|]; simpl; try tauto.
  destruct (baseClass_of property) as [b|]; simpl; try tauto.
  destruct (b =? "Construct")%string; simpl; try tauto.
  intros [<-|[]]. eauto.
Qed.

Lemma identifier_qualifier_reports_kind (context : RuleContext) (n : IdentifierNode)
    (g : Globals) (r : Report) :
  In r (identifier_qualifier_reports context n g) ->
  exists rg, r = qualifier_report context g (Identifier_node n) rg.
Proof.
  unfold identifier_qualifier_reports.
  destruct (typeAnnotation n) as [ann|]; simpl; try tauto.
  destruct (is_qualified_Construct ann); simpl; try tauto.
  intros [<-|[]]. eauto.
Qed.

(** Every report of a visit is a qualifier violation, or the flush of the
    violation pending at a visit that uses the alias. *)
Lemma dispatch_report_kinds (context : RuleContext) (v : Visit) (g : Globals) (r : Report) :
  In r (reports (dispatch (create context) v g)) ->
  (exists n rg, r = qualifier_report context g n rg)
  \/ (uses_CoreConstruct v = true
      /\ exists pending, importOrderViolation g = Some pending /\ flushes pending r).
Proof.
  unfold create.
  destruct (includes (getFilename context) "@aws-cdk/core");
    [destruct v; simpl; tauto|].
  destruct v as [|n|n|n]; simpl.
  - tauto.
  - unfold ImportDeclaration_handler. rewrite ImportDeclaration_loop_reports. simpl. tauto.
  - rewrite ClassDeclaration_handler_reports. intros Hin.
    apply in_app_or in Hin. destruct Hin as [Hin|Hin].
    + left. destruct (class_qualifier_reports_kind _ _ _ _ Hin) as [rg ->]. eauto.
    + right. destruct (class_uses_alias n); [|destruct Hin].
      split; [reflexivity|]. eapply reportImportOrderViolations_reports; eauto.
  - rewrite Identifier_handler_reports. intros Hin.
    apply in_app_or in Hin. destruct Hin as [Hin|Hin].
    + left. destruct (identifier_qualifier_reports_kind _ _ _ _ Hin) as [rg ->]. eauto.
    + right. destruct (name n =? "CoreConstruct")%string; [|destruct Hin].
      split; [reflexivity|]. eapply reportImportOrderViolations_reports; eauto.
Qed.

(** The fixer of [report] replaces the range it is given, and may add an
    insertion; it never removes a range. *)
Lemma report_fix_shape (context : RuleContext) (cache : imports_t) (r : Range) :
  exists replaceBy inserted,
    report_fix context cache r = replaceTextRange r replaceBy :: inserted
    /\ forall f, In f inserted -> exists anchor text, f = insertTextAfter anchor text.
Proof.
  unfold report_fix.
  destruct (replaceBy_addImport (imports_of context cache)) as [replaceBy [addImport|]].
  - destruct (lastImport_of (imports_of context cache)) as [lastImport|].
    + exists replaceBy. eexists. split; [reflexivity|].
      intros f [<-|[]]. eauto.
    + exists replaceBy, []. split; [reflexivity|]. intros f [].
  - exists replaceBy, []. split; [reflexivity|]. intros f [].
Qed.

Lemma report_fix_never_removes (context : RuleContext) (cache : imports_t) (r rg : Range) :
  ~ In (removeRange rg) (report_fix context cache r).
Proof.
  destruct (report_fix_shape context cache r) as [replaceBy [inserted [-> Hins]]].
  intros [H|H]; [discriminate|].
  destruct (Hins _ H) as [anchor [text E]]. discriminate.
Qed.

(** * The qualifier fix *)

(** C1, as stated, fails twice.  In a file with no recorded import none of
    the three lookups succeeds, and the fix replaces the reference by
    [Construct] without adding any import.  In a file that binds [Construct]
    and [CoreConstruct] from [@aws-cdk/core] and [Construct] from
    [constructs], the alias binding and the peer binding both exist, and the
    fix chooses [Construct], not the alias. *)
Lemma qualifier_fix_table_counterexample :
  (let imports := imports_of Samples.app_ts ImportCache.empty in
   findImport imports "@aws-cdk/core.Construct" = None
   /\ findImport imports "@aws-cdk/core.CoreConstruct" = None
   /\ findImport imports "constructs.Construct" = None
   /\ report_fix Samples.app_ts ImportCache.empty (18, 31)
      = [replaceTextRange (18, 31) "Construct"])
  /\
  (let imports := imports_of Samples.app_ts QualifierSamples.cache_all_three in
   findImport imports "@aws-cdk/core.CoreConstruct" <> None
   /\ findImport imports "constructs.Construct" <> None
   /\ report_fix Samples.app_ts QualifierSamples.cache_all_three (130, 143)
      = [replaceTextRange (130, 143) "Construct"]).
Proof.
  split.
  - repeat split.
  - vm_compute. repeat split; discriminate.
Qed.

(** C1, amended: the fixer of [report] looks up, in the bindings recorded for
    the current file, [@aws-cdk/core.Construct], [@aws-cdk/core.CoreConstruct]
    and [constructs.Construct], in this order of priority.  If the first is
    found, the reference is replaced by [Construct] and nothing is inserted.
    If the first is not found and the second is, the reference is replaced by
    [CoreConstruct] and nothing is inserted, also when the third is found.
    If only the third is found, the reference is replaced by [CoreConstruct]
    and an aliased import of [Construct] from [@aws-cdk/core] is inserted
    after the last recorded import of the file.  If none is found, the
    reference is replaced by [Construct], and a plain import from
    [@aws-cdk/core] is inserted after the last recorded import of the file
    when the file has one; a file with no recorded import gets the
    replacement only. *)
Theorem qualifier_fix_decision_table
    (context : RuleContext) (cache : imports_t) (replaceRange : Range) :
  let imports := imports_of context cache in
  let coreConstruct := findImport imports "@aws-cdk/core.Construct" in
  let coreCoreConstruct := findImport imports "@aws-cdk/core.CoreConstruct" in
  let constructsConstruct := findImport imports "constructs.Construct" in
  (coreConstruct <> None ->
   report_fix context cache replaceRange = [replaceTextRange replaceRange "Construct"])
  /\ (coreConstruct = None -> coreCoreConstruct <> None ->
      report_fix context cache replaceRange
      = [replaceTextRange replaceRange "CoreConstruct"])
  /\ (coreConstruct = None -> coreCoreConstruct = None -> constructsConstruct <> None ->
      exists lastImport,
        lastImport_of imports = Some lastImport
        /\ report_fix context cache replaceRange
           = [replaceTextRange replaceRange "CoreConstruct";
              insertTextAfter (importNode lastImport)
                (added_import_text
                   "import { Construct as CoreConstruct } from '@aws-cdk/core';")])
  /\ (coreConstruct = None -> coreCoreConstruct = None -> constructsConstruct = None ->
      (forall lastImport,
          lastImport_of imports = Some lastImport ->
          report_fix context cache replaceRange
          = [replaceTextRange replaceRange "Construct";
             insertTextAfter (importNode lastImport)
               (added_import_text "import { Construct } from '@aws-cdk/core';")])
      /\ (imports = [] ->
          report_fix context cache replaceRange
          = [replaceTextRange replaceRange "Construct"])).
Proof.
  intros imports coreConstruct coreCoreConstruct constructsConstruct.
  unfold report_fix, replaceBy_addImport.
  fold imports. fold coreConstruct. fold coreCoreConstruct. fold constructsConstruct.
  split; [|split; [|split]].
  - intros H1. destruct coreConstruct; [reflexivity|congruence].
  - intros H1 H2. rewrite H1. destruct coreCoreConstruct; [reflexivity|congruence].
  - intros H1 H2 H3. rewrite H1, H2.
    destruct constructsConstruct eqn:E3; [|congruence].
    destruct (@lastImport_of_nonempty imports) as [lastImport HL].
    { apply (@findImport_some_nonempty imports "constructs.Construct").
      fold constructsConstruct. rewrite E3. discriminate. }
    exists lastImport. split; [assumption|]. rewrite HL. reflexivity.
  - intros H1 H2 H3. rewrite H1, H2, H3. split.
    + intros lastImport HL. rewrite HL. reflexivity.
    + intros Hnil. rewrite Hnil. reflexivity.
Qed.

(** The four rows of the table, and the case of both the alias and the peer
    binding, on sample files. *)
Lemma qualifier_fix_decision_table_witness :
  report_fix Samples.app_ts
    (QualifierSamples.cache_after [QualifierSamples.import_core_plain]) (60, 73)
  = [replaceTextRange (60, 73) "Construct"]
  /\ report_fix Samples.app_ts
       (QualifierSamples.cache_after [QualifierSamples.import_core_alias;
                                      Samples.import_constructs]) (130, 143)
     = [replaceTextRange (130, 143) "CoreConstruct"]
  /\ (exists lastImport,
        lastImport_of (imports_of Samples.app_ts
                         (QualifierSamples.cache_after [Samples.import_constructs]))
        = Some lastImport
        /\ report_fix Samples.app_ts
             (QualifierSamples.cache_after [Samples.import_constructs]) (130, 143)
           = [replaceTextRange (130, 143) "CoreConstruct";
              insertTextAfter (importNode lastImport)
                (added_import_text
                   "import { Construct as CoreConstruct } from '@aws-cdk/core';")])
  /\ report_fix Samples.app_ts ImportCache.empty (18, 31)
     = [replaceTextRange (18, 31) "Construct"].
Proof.
  split; [|split; [|split]].
  - apply (proj1 (qualifier_fix_decision_table Samples.app_ts
                    (QualifierSamples.cache_after [QualifierSamples.import_core_plain])
                    (60, 73))).
    vm_compute. discriminate.
  - apply (proj1 (proj2 (qualifier_fix_decision_table Samples.app_ts
                    (QualifierSamples.cache_after [QualifierSamples.import_core_alias;
                                                   Samples.import_constructs])
                    (130, 143)))).
    + vm_compute. reflexivity.
    + vm_compute. discriminate.
  - apply (proj1 (proj2 (proj2 (qualifier_fix_decision_table Samples.app_ts
                    (QualifierSamples.cache_after [Samples.import_constructs])
                    (130, 143))))).
    + vm_compute. reflexivity.
    + vm_compute. reflexivity.
    + vm_compute. discriminate.
  - apply (proj2 (proj2 (proj2 (qualifier_fix_decision_table Samples.app_ts
                    ImportCache.empty (18, 31))))); reflexivity.
Defined.

(** * The isolation violation *)

(** C2, as stated, fails where the alias specifier is last: on
    [import { A, CoreConstruct } from 'm';] the stored range is the
    specifier's own, which covers [CoreConstruct] and not the separator
    before it, so that removing it leaves [import { A,  } from 'm';]. *)
Lemma isolation_delete_range_counterexample :
  importOrderViolation
    (globals (ImportDeclaration_handler Samples.app_ts Samples.import_last Samples.no_globals))
  = Some {| violation_node := Samples.import_last; violation_range := (12, 25) |}
  /\ text_in Samples.src_last (12, 25) = "CoreConstruct"
  /\ text_in Samples.src_last (12, 25) <> ", CoreConstruct"
  /\ apply_removeRange Samples.src_last (12, 25) = "import { A,  } from 'm';".
Proof.
  repeat split. vm_compute. discriminate.
Qed.

(** C2, amended: for an import declaration with more than one specifier,
    whose specifiers all carry a range, let [s] be the last specifier whose
    local name is [CoreConstruct].  The range stored with the pending
    violation is the range of [s] when [s] is the last specifier, and
    otherwise runs from the start of [s] to the start of the next specifier.
    When the specifiers are in document order, this range shares no
    character with any other specifier, and the text it covers is the text
    of [s] followed by the text up to the next specifier: on
    [import { A, Alias, B }] it covers [Alias, ], and where the alias is last
    it covers [Alias] alone. *)
Theorem isolation_delete_range
    (context : RuleContext) (g : Globals) (n : ImportDeclarationNode)
    (pre : list ImportSpecifierNode) (s : ImportSpecifierNode)
    (post : list ImportSpecifierNode) (r : Range) :
  specifiers n = pre ++ s :: post ->
  local_name s = "CoreConstruct" ->
  specifier_range s = Some r ->
  (1 < length (specifiers n))%nat ->
  Forall has_range (specifiers n) ->
  Forall (fun s' => local_name s' <> "CoreConstruct") post ->
  exists del,
    importOrderViolation (globals (ImportDeclaration_handler context n g))
    = Some {| violation_node := n; violation_range := del |}
    /\ match post with
       | [] => del = r
       | next :: _ =>
           exists next_range,
             specifier_range next = Some next_range /\ del = (fst r, fst next_range)
       end
    /\ (in_document_order (specifiers n) ->
        Forall (fun other => forall r', specifier_range other = Some r' ->
                                        ranges_apart del r')
               (pre ++ post)
        /\ forall src,
            text_in src del
            = (text_in src r
               ++ match post with
                  | [] => EmptyString
                  | next :: _ =>
                      match specifier_range next with
                      | Some next_range => text_in src (snd r, fst next_range)
                      | None => EmptyString
                      end
                  end)%string).
Proof.
  intros Hn Halias Hr Hseveral Hranged Hlast.
  exists (delete_range r post). split; [|split].
  - rewrite (@ImportDeclaration_handler_last_alias context n s post r
               Hranged Halias Hr Hseveral Hlast pre g Hn).
    reflexivity.
  - destruct post as [|next post']; [reflexivity|].
    assert (Hnext : has_range next).
    { rewrite Hn in Hranged. apply Forall_app in Hranged. destruct Hranged as [_ H].
      inversion H as [|? ? _ H']. inversion H'. assumption. }
    unfold has_range in Hnext. unfold delete_range.
    destruct (specifier_range next) as [nr|]; [eauto|congruence].
  - intros Hord. rewrite Hn in Hord. split.
    + apply (@delete_range_apart pre s post r Hr Hord).
    + intros src. destruct Hord as [Hfwd Hpairs].
      destruct (ForallOrdPairs_split _ _ _ Hpairs) as [_ [Hafter _]].
      apply Forall_app in Hfwd. destruct Hfwd as [_ Hfwd].
      inversion Hfwd as [|? ? Hs_fwd _]; subst.
      destruct post as [|next post']; simpl.
      * clear. unfold text_in. induction (substring _ _ src); simpl; congruence.
      * destruct (specifier_range next) as [nr|] eqn:Hnext.
        -- apply text_in_until_next; [apply Hs_fwd; assumption|].
           inversion Hafter as [|? ? Hnext_after _]; subst.
           apply (Hnext_after r nr); assumption.
        -- clear. unfold text_in. induction (substring _ _ src); simpl; congruence.
Qed.

(** On [import { A, CoreConstruct, B } from 'm';] the stored range is
    [(12, 27)]: it covers [CoreConstruct, ] and leaves [A] and [B]. *)
Lemma isolation_delete_range_witness :
  (exists del,
      importOrderViolation
        (globals (ImportDeclaration_handler Samples.app_ts Samples.import_mid
                    Samples.no_globals))
      = Some {| violation_node := Samples.import_mid; violation_range := del |}
      /\ del = (12, 27)
      /\ text_in Samples.src_mid del = "CoreConstruct, "
      /\ apply_removeRange Samples.src_mid del = "import { A, B } from 'm';")
  /\ text_in Samples.src_mid (9, 10) = "A"
  /\ text_in Samples.src_mid (12, 25) = "CoreConstruct"
  /\ text_in Samples.src_mid (27, 28) = "B".
Proof.
  split; [|repeat split].
  destruct (@isolation_delete_range Samples.app_ts Samples.no_globals Samples.import_mid
              [ImportSpecifier "A" "A" (Some (9, 10))]
              (ImportSpecifier "CoreConstruct" "CoreConstruct" (Some (12, 25)))
              [ImportSpecifier "B" "B" (Some (27, 28))]
              (12, 25))
    as [del [Hslot [Hdel _]]].
  - reflexivity.
  - reflexivity.
  - reflexivity.
  - simpl. lia.
  - repeat constructor; discriminate.
  - repeat constructor; discriminate.
  - destruct Hdel as [next_range [Hnext ->]].
    inversion Hnext; subst. exists (12, 27).
    split; [exact Hslot|]. repeat split.
Defined.

(** * A qualifier violation in a file without imports *)

(** C3, as stated, fails: on a file whose only statement is
    [class Foo extends cdk.Construct {}] no import is recorded and the table
    asks for a new import, yet the violation is reported with one edit, the
    replacement of [cdk.Construct] by [Construct]. *)
Lemma fix_without_imports_counterexample :
  imports_of Samples.app_ts (importCache Samples.no_globals) = []
  /\ snd (replaceBy_addImport (imports_of Samples.app_ts (importCache Samples.no_globals)))
     = Some "import { Construct } from '@aws-cdk/core';"
  /\ map fixes
       (reports (lint Samples.app_ts
                   [visit_ClassDeclaration (Samples.class_extends "cdk" (18, 31))]
                   Samples.no_globals))
     = [[replaceTextRange (18, 31) "Construct"]]
  /\ [replaceTextRange (18, 31) "Construct"] <> [].
Proof.
  repeat split. discriminate.
Qed.

(** C3, amended: for a qualifier violation in a file with no recorded import,
    the violation is reported and its fix holds exactly one edit, the
    replacement of the qualified reference by [Construct]; no import is
    inserted. *)
Theorem fix_without_imports
    (context : RuleContext) (g : Globals) (n : Node) (replaceRange : Range) :
  imports_of context (importCache g) = [] ->
  report context n replaceRange g
  = {| globals := g;
       reports := [{| message := qualifierMessage;
                      node := n;
                      fixes := [replaceTextRange replaceRange "Construct"] |}];
       value := inr tt |}.
Proof.
  intros Hnil. rewrite report_outcome.
  unfold report_fix. rewrite Hnil. reflexivity.
Qed.

(** The file [lib/other.ts], linted after [lib/app.ts] has filled the cache. *)
Lemma fix_without_imports_witness :
  let g := globals (lint Samples.app_ts
                      [visit_ImportDeclaration Samples.import_constructs]
                      Samples.no_globals) in
  let n := ClassDeclaration_node (Samples.class_extends "cdk" (18, 31)) in
  importCache g <> []
  /\ report Samples.other_ts n (18, 31) g
     = {| globals := g;
          reports := [{| message := qualifierMessage;
                         node := n;
                         fixes := [replaceTextRange (18, 31) "Construct"] |}];
          value := inr tt |}.
Proof.
  split.
  - vm_compute. discriminate.
  - apply fix_without_imports. reflexivity.
Defined.

(** * Qualified references *)

(** The class handler reports whatever the qualifier is: it looks at the
    property of the member expression only. *)
Lemma ClassDeclaration_handler_any_qualifier
    (context : RuleContext) (g : Globals) (c : string) (qualifier : Expression)
    (id : IdentifierNode) (r : Range) :
  name id = "Construct" ->
  let n := {| class_name := c;
              superClass := Some (MemberExpression qualifier (Identifier_expr id) (Some r)) |} in
  reports (ClassDeclaration_handler context n g)
  = [qualifier_report context g (ClassDeclaration_node n) r].
Proof.
  intros Hid n. rewrite ClassDeclaration_handler_reports.
  unfold class_qualifier_reports, class_uses_alias. simpl. rewrite Hid. reflexivity.
Qed.

(** C4: the code at the failing input.  In a file that reads
    [import * as constructs from 'constructs';] and then
    [class Foo extends constructs.Construct {}], the class is reported, and
    the fix rewrites its superclass to [Construct] imported from
    [@aws-cdk/core]. *)
Theorem class_extends_constructs_is_reported :
  reports (lint Samples.app_ts
             [visit_ImportDeclaration ReferenceSamples.import_constructs_namespace;
              visit_ClassDeclaration ReferenceSamples.class_extends_constructs]
             Samples.no_globals)
  = [{| message := qualifierMessage;
        node := ClassDeclaration_node ReferenceSamples.class_extends_constructs;
        fixes := [replaceTextRange (60, 80) "Construct";
                  insertTextAfter ReferenceSamples.import_constructs_namespace
                    (added_import_text "import { Construct } from '@aws-cdk/core';")] |}].
Proof. reflexivity. Qed.

(** The sibling path: the same qualifier in a type annotation is not
    reported. *)
Lemma annotation_constructs_is_not_reported :
  reports (lint Samples.app_ts
             [visit_ImportDeclaration ReferenceSamples.import_constructs_namespace;
              visit_Identifier (Samples.annotated "constructs" (60, 80))]
             Samples.no_globals)
  = [].
Proof. reflexivity. Qed.

(** C5: for an identifier annotated with the qualified type [X.Construct],
    the identifier handler reports a qualifier violation if and only if [X]
    is not the identifier [constructs]; the violation is at the identifier,
    its fix replaces the range of the annotation, and no other qualifier
    violation is reported. *)
Theorem annotation_violation_iff
    (context : RuleContext) (g : Globals) (x : string) (qualifier : EntityName)
    (ann_range : Range) :
  let n := {| name := x;
              typeAnnotation :=
                Some (TSTypeReference (TSQualifiedName qualifier "Construct") ann_range) |} in
  let violation := qualifier_report context g (Identifier_node n) ann_range in
  (In violation (reports (Identifier_handler context n g))
   <-> qualifier <> TSIdentifier "constructs")
  /\ replaces_range ann_range violation
  /\ (forall r, In r (reports (Identifier_handler context n g)) ->
                message r = qualifierMessage -> r = violation).
Proof.
  intros n violation.
  rewrite Identifier_handler_reports.
  unfold identifier_qualifier_reports. simpl.
  assert (Hflush : forall r,
             In r (if (x =? "CoreConstruct")%string
                   then reports (reportImportOrderViolations context g) else []) ->
             message r = importOrderMessage).
  { intros r Hin. destruct (x =? "CoreConstruct")%string; [|destruct Hin].
    destruct (reportImportOrderViolations_reports _ _ _ Hin) as [v [_ [Hm _]]].
    exact Hm. }
  assert (Hq : (match qualifier with
                | TSIdentifier left_name => (left_name =? "constructs")%string
                | TSQualifiedName _ _ => false
                end = true) <-> qualifier = TSIdentifier "constructs").
  { destruct qualifier as [left_name|q' m]; split; intros H; try discriminate.
    - apply String.eqb_eq in H. congruence.
    - inversion H. apply String.eqb_refl. }
  split; [split|split].
  - intros Hin Heq. apply in_app_or in Hin. destruct Hin as [Hin|Hin].
    + apply Hq in Heq. rewrite Heq in Hin. destruct Hin.
    + apply Hflush in Hin. apply messages_differ. exact Hin.
  - intros Hne. apply in_or_app. left.
    destruct (match qualifier with
              | TSIdentifier left_name => (left_name =? "constructs")%string
              | TSQualifiedName _ _ => false
              end) eqn:E.
    + exfalso. apply Hne. apply Hq. reflexivity.
    + left. reflexivity.
  - unfold replaces_range, violation. simpl.
    destruct (report_fix_shape context (importCache g) ann_range)
      as [replaceBy [inserted [E _]]].
    eauto.
  - intros r Hin Hmsg. apply in_app_or in Hin. destruct Hin as [Hin|Hin].
    + destruct (negb _); simpl in Hin; [|destruct Hin].
      destruct Hin as [<-|[]]. reflexivity.
    + exfalso. apply Hflush in Hin. apply messages_differ. congruence.
Qed.

(** * The pending violation *)

(** Visits that do not use the alias report qualifier violations only. *)
Lemma traverse_without_usage (context : RuleContext) (vs : list Visit) :
  forallb (fun v => negb (uses_CoreConstruct v)) vs = true ->
  forall g r,
    In r (reports (traverse (create context) vs g)) ->
    exists g' n rg, r = qualifier_report context g' n rg.
Proof.
  induction vs as [|v vs IH]; simpl; intros H g r Hin; [destruct Hin|].
  apply andb_true_iff in H. destruct H as [Hv Hvs].
  rewrite bind_reports in Hin. apply in_app_or in Hin. destruct Hin as [Hin|Hin].
  - destruct (dispatch_report_kinds _ _ _ _ Hin) as [[n [rg ->]]|[Huse _]].
    + eauto.
    + rewrite Huse in Hv. discriminate.
  - destruct (value (dispatch (create context) v g)); [destruct Hin|].
    eapply IH; eauto.
Qed.

(** C6: from a state in which an isolation violation is pending, a stream of
    visits none of which uses the alias produces no isolation violation:
    every report of the stream is a qualifier violation, and no fix of the
    stream removes a range.  The pending violation is not reported. *)
Theorem pending_violation_dropped_without_usage
    (context : RuleContext) (g : Globals) (pending : ImportOrderViolation)
    (vs : list Visit) :
  importOrderViolation g = Some pending ->
  forallb (fun v => negb (uses_CoreConstruct v)) vs = true ->
  forall r,
    In r (reports (traverse (create context) vs g)) ->
    message r = qualifierMessage
    /\ message r <> importOrderMessage
    /\ ~ flushes pending r
    /\ forall rg, ~ In (removeRange rg) (fixes r).
Proof.
  intros _ Hvs r Hin.
  destruct (traverse_without_usage context vs Hvs g r Hin) as [g' [n [rg ->]]].
  split; [reflexivity|]. split; [exact messages_differ|]. split.
  - intros [Hm _]. exact (messages_differ Hm).
  - intros rg'. apply report_fix_never_removes.
Qed.

(** A file that imports [CoreConstruct] beside other names and then only
    extends [cdk.Construct]: the qualifier violation is the only report. *)
Lemma pending_violation_dropped_without_usage_witness :
  let g := globals (lint Samples.app_ts
                      [visit_ImportDeclaration Samples.import_core_combined]
                      Samples.no_globals) in
  let rest := [visit_ClassDeclaration (Samples.class_extends "cdk" (96, 109));
               visit_Identifier (Samples.ident "Foo")] in
  importOrderViolation g
  = Some {| violation_node := Samples.import_core_combined; violation_range := (19, 47) |}
  /\ length (reports (traverse (create Samples.app_ts) rest g)) = 1%nat
  /\ forall r,
      In r (reports (traverse (create Samples.app_ts) rest g)) ->
      message r = qualifierMessage
      /\ message r <> importOrderMessage
      /\ ~ flushes {| violation_node := Samples.import_core_combined;
                      violation_range := (19, 47) |} r
      /\ forall rg, ~ In (removeRange rg) (fixes r).
Proof.
  intros g rest. split; [reflexivity|]. split; [reflexivity|].
  apply (@pending_violation_dropped_without_usage Samples.app_ts g
           {| violation_node := Samples.import_core_combined; violation_range := (19, 47) |}
           rest); reflexivity.
Defined.

(** Below the imports, an isolation violation is the flush of the violation
    that was pending when the references began. *)
Lemma traverse_reference_flushes (context : RuleContext) (vs : list Visit) :
  forallb is_reference_visit vs = true ->
  forall g r,
    In r (reports (traverse (create context) vs g)) ->
    message r = importOrderMessage ->
    exists pending, importOrderViolation g = Some pending /\ flushes pending r.
Proof.
  induction vs as [|v vs IH]; simpl; intros H g r Hin Hmsg; [destruct Hin|].
  apply andb_true_iff in H. destruct H as [Hv Hvs].
  rewrite bind_reports in Hin. apply in_app_or in Hin. destruct Hin as [Hin|Hin].
  - destruct (dispatch_report_kinds _ _ _ _ Hin) as [[n [rg ->]]|[_ Hflush]].
    + exfalso. exact (messages_differ Hmsg).
    + exact Hflush.
  - destruct (value (dispatch (create context) v g)); [destruct Hin|].
    rewrite (dispatch_reference_globals context v Hv g) in Hin.
    eapply IH; eauto.
Qed.

(** C7: the slot [importOrderViolation] holds one violation or none.  In a
    file the rule handles, the visit of [Program] sets it to none.  The visit
    of an import declaration with several specifiers, one of which binds
    [CoreConstruct], sets it to the violation of that declaration whatever
    it held before, and it keeps this value over the classes and identifiers
    that follow: every isolation violation reported there is the flush of
    this most recent declaration. *)
Theorem pending_slot_most_recent
    (context : RuleContext) (g : Globals) (n : ImportDeclarationNode)
    (pre : list ImportSpecifierNode) (s : ImportSpecifierNode)
    (post : list ImportSpecifierNode) (r : Range) (refs : list Visit) :
  includes (getFilename context) "@aws-cdk/core" = false ->
  specifiers n = pre ++ s :: post ->
  local_name s = "CoreConstruct" ->
  specifier_range s = Some r ->
  (1 < length (specifiers n))%nat ->
  Forall has_range (specifiers n) ->
  Forall (fun s' => local_name s' <> "CoreConstruct") post ->
  forallb is_reference_visit refs = true ->
  let latest := {| violation_node := n; violation_range := delete_range r post |} in
  let run := traverse (create context) (visit_ImportDeclaration n :: refs) g in
  importOrderViolation (globals (dispatch (create context) visit_Program g)) = None
  /\ importOrderViolation (globals run) = Some latest
  /\ forall rep, In rep (reports run) -> message rep = importOrderMessage ->
                 flushes latest rep.
Proof.
  intros Hfile Hn Halias Hr Hseveral Hranged Hlast Hrefs latest run.
  assert (Himport : dispatch (create context) (visit_ImportDeclaration n) g
                    = {| globals :=
                           {| importCache := importCache g
                                             ++ map (recorded_import context n) (specifiers n);
                              importOrderViolation := Some latest |};
                         reports := []; value := inr tt |}).
  { rewrite (create_other _ Hfile). simpl.
    apply (@ImportDeclaration_handler_last_alias context n s post r
             Hranged Halias Hr Hseveral Hlast pre g Hn). }
  split; [|split].
  - rewrite (create_other _ Hfile). reflexivity.
  - unfold run. rewrite traverse_cons, bind_globals, Himport. simpl.
    rewrite (traverse_reference_globals context refs Hrefs). reflexivity.
  - intros rep Hin Hmsg. unfold run in Hin.
    rewrite traverse_cons, bind_reports, Himport in Hin. simpl in Hin.
    destruct (traverse_reference_flushes context refs Hrefs _ _ Hin Hmsg)
      as [pending [Hp Hflush]].
    simpl in Hp. inversion Hp; subst. exact Hflush.
Qed.

(** A file with two combined imports of [CoreConstruct]: the use of the alias
    flushes the second. *)
Lemma pending_slot_most_recent_witness :
  let g := globals (lint Samples.app_ts
                      [visit_ImportDeclaration Samples.import_core_combined]
                      Samples.no_globals) in
  let latest := {| violation_node := Samples.import_mid; violation_range := (12, 27) |} in
  let run := traverse (create Samples.app_ts)
               [visit_ImportDeclaration Samples.import_mid;
                visit_Identifier (Samples.ident "CoreConstruct")] g in
  importOrderViolation g
  = Some {| violation_node := Samples.import_core_combined; violation_range := (19, 47) |}
  /\ importOrderViolation (globals (dispatch (create Samples.app_ts) visit_Program g)) = None
  /\ importOrderViolation (globals run) = Some latest
  /\ map node (reports run) = [ImportDeclaration_node Samples.import_mid]
  /\ forall rep, In rep (reports run) -> message rep = importOrderMessage ->
                 flushes latest rep.
Proof.
  intros g latest run. split; [reflexivity|].
  destruct (@pending_slot_most_recent Samples.app_ts g Samples.import_mid
              [ImportSpecifier "A" "A" (Some (9, 10))]
              (ImportSpecifier "CoreConstruct" "CoreConstruct" (Some (12, 25)))
              [ImportSpecifier "B" "B" (Some (27, 28))]
              (12, 25)
              [visit_Identifier (Samples.ident "CoreConstruct")])
    as [Hreset [Hslot Hflush]].
  - reflexivity.
  - reflexivity.
  - reflexivity.
  - reflexivity.
  - simpl. lia.
  - repeat constructor; discriminate.
  - repeat constructor; discriminate.
  - reflexivity.
  - split; [exact Hreset|]. split; [exact Hslot|]. split; [reflexivity|exact Hflush].
Defined.

(** * Files are independent *)

(** Linting a file adds bindings under that file's name only. *)
Lemma ImportDeclaration_loop_other_slice (linted other : RuleContext)
    (n : ImportDeclarationNode) (rest : list ImportSpecifierNode) :
  getFilename linted <> getFilename other ->
  forall i g,
    imports_of other (importCache (globals (ImportDeclaration_loop linted n i rest g)))
    = imports_of other (importCache g).
Proof.
  intros Hne. induction rest as [|s rest IH]; intros i g; [reflexivity|].
  simpl. rewrite bind_globals, ImportDeclaration_body_outcome.
  destruct (pending_after n i s (importOrderViolation g)); simpl; [reflexivity|].
  rewrite IH. simpl. apply imports_of_record_other. exact Hne.
Qed.

Lemma dispatch_other_slice (linted other : RuleContext) (v : Visit) (g : Globals) :
  getFilename linted <> getFilename other ->
  imports_of other (importCache (globals (dispatch (create linted) v g)))
  = imports_of other (importCache g).
Proof.
  intros Hne. unfold create.
  destruct (includes (getFilename linted) "@aws-cdk/core"); [destruct v; reflexivity|].
  destruct v as [|n|n|n]; simpl.
  - reflexivity.
  - apply ImportDeclaration_loop_other_slice. exact Hne.
  - rewrite ClassDeclaration_handler_globals. reflexivity.
  - rewrite Identifier_handler_globals. reflexivity.
Qed.

Lemma traverse_other_slice (linted other : RuleContext) (vs : list Visit) :
  getFilename linted <> getFilename other ->
  forall g,
    imports_of other (importCache (globals (traverse (create linted) vs g)))
    = imports_of other (importCache g).
Proof.
  intros Hne. induction vs as [|v vs IH]; intros g; [reflexivity|].
  rewrite traverse_cons, bind_globals.
  destruct (value (dispatch (create linted) v g)).
  - apply dispatch_other_slice. exact Hne.
  - rewrite IH. apply dispatch_other_slice. exact Hne.
Qed.

(** C8: the reports of a file, edits included, depend on the cache only
    through the bindings recorded under the file's own name.  Two runs that
    start from caches with the same bindings for this file, whatever they
    hold for other files and whatever violation another file left pending,
    lint the file to the same reports and the same completion. *)
Theorem cross_file_independence
    (context : RuleContext) (body : list Visit) (g1 g2 : Globals) :
  imports_of context (importCache g1) = imports_of context (importCache g2) ->
  reports (lint context body g1) = reports (lint context body g2)
  /\ value (lint context body g1) = value (lint context body g2).
Proof.
  intros Hslice. unfold lint.
  destruct (includes (getFilename context) "@aws-cdk/core") eqn:Hfile.
  - rewrite !(traverse_core _ _ Hfile). auto.
  - rewrite !traverse_cons, !bind_reports, !bind_value.
    rewrite (create_other _ Hfile). simpl.
    rewrite <- (create_other _ Hfile).
    destruct (@file_local_traverse context body
                {| importCache := importCache g1; importOrderViolation := None |}
                {| importCache := importCache g2; importOrderViolation := None |})
      as [Hr [Hv _]].
    { split; [exact Hslice|reflexivity]. }
    auto.
Qed.

(** Linting [lib/other.ts] first changes nothing for [lib/app.ts]. *)
Lemma cross_file_independence_witness :
  let body := [visit_ImportDeclaration Samples.import_constructs;
               visit_ClassDeclaration (Samples.class_extends "cdk" (130, 143))] in
  let g_after_other :=
    globals (lint Samples.other_ts
               [visit_ImportDeclaration QualifierSamples.import_core_alias;
                visit_ImportDeclaration Samples.import_mid]
               Samples.no_globals) in
  importCache g_after_other <> importCache Samples.no_globals
  /\ importOrderViolation g_after_other <> importOrderViolation Samples.no_globals
  /\ reports (lint Samples.app_ts body g_after_other)
     = reports (lint Samples.app_ts body Samples.no_globals)
  /\ value (lint Samples.app_ts body g_after_other)
     = value (lint Samples.app_ts body Samples.no_globals).
Proof.
  intros body g_after_other.
  split; [vm_compute; discriminate|]. split; [vm_compute; discriminate|].
  apply cross_file_independence. reflexivity.
Defined.

(** Linting another file first changes no report of this file. *)
Lemma lint_other_file_first (first context : RuleContext) (body_first body : list Visit)
    (g : Globals) :
  getFilename first <> getFilename context ->
  reports (lint context body (globals (lint first body_first g)))
  = reports (lint context body g).
Proof.
  intros Hne.
  assert (Hslice : imports_of context (importCache (globals (lint first body_first g)))
                   = imports_of context (importCache g))
    by (apply traverse_other_slice; exact Hne).
  unfold lint at 1 3.
  destruct (includes (getFilename context) "@aws-cdk/core") eqn:Hfile.
  - rewrite !(traverse_core _ _ Hfile). reflexivity.
  - rewrite !traverse_cons, !bind_reports.
    rewrite (create_other _ Hfile). simpl.
    rewrite <- (create_other _ Hfile).
    apply (@file_local_traverse context body). split; [exact Hslice|reflexivity].
Qed.

(** * Files of the core package *)

(** C9: for a file whose name contains [@aws-cdk/core], [create] registers no
    handler: whatever nodes are visited, nothing is reported, no binding is
    recorded, and the module state stays as it was. *)
Theorem core_files_are_skipped
    (context : RuleContext) (vs : list Visit) (g : Globals) :
  includes (getFilename context) "@aws-cdk/core" = true ->
  create context = {| Program := None; ImportDeclaration := None;
                      ClassDeclaration := None; Identifier := None |}
  /\ traverse (create context) vs g = {| globals := g; reports := []; value := inr tt |}.
Proof.
  intros Hfile. split.
  - apply create_core. exact Hfile.
  - apply traverse_core. exact Hfile.
Qed.

(** The nodes that give two violations in [lib/app.ts] give none in a file
    of the core package. *)
Lemma core_files_are_skipped_witness :
  let vs := [visit_Program;
             visit_ImportDeclaration Samples.import_core_combined;
             visit_ClassDeclaration (Samples.class_extends "cdk" (96, 109));
             visit_Identifier (Samples.ident "CoreConstruct")] in
  length (reports (traverse (create Samples.app_ts) vs Samples.no_globals)) = 2%nat
  /\ create Samples.core_ts = {| Program := None; ImportDeclaration := None;
                                 ClassDeclaration := None; Identifier := None |}
  /\ traverse (create Samples.core_ts) vs Samples.no_globals
     = {| globals := Samples.no_globals; reports := []; value := inr tt |}.
Proof.
  intros vs. split; [reflexivity|].
  apply core_files_are_skipped. reflexivity.
Defined.

(** * The isolation fix finds its anchor *)

(** C10: in the lint of any file, from any module state, the fixer of
    [reportImportOrderViolations] never reads [importNode] of an absent last
    import: at every point of a file the rule handles, a pending violation
    comes with a recorded import of the file, and the fixer returns its two
    edits. *)
Theorem isolation_fix_has_last_import
    (context : RuleContext) (body : list Visit) (g : Globals) :
  value (lint context body g) <> inl importNode_of_undefined
  /\ (includes (getFilename context) "@aws-cdk/core" = false ->
      forall pending,
        importOrderViolation (globals (lint context body g)) = Some pending ->
        imports_of context (importCache (globals (lint context body g))) <> []
        /\ exists lastImport,
            importOrder_fix context (importCache (globals (lint context body g))) pending
            = inr [removeRange (violation_range pending);
                   insertTextAfter (importNode lastImport) isolation_import_text]).
Proof.
  destruct (includes (getFilename context) "@aws-cdk/core") eqn:Hfile.
  - split; [|discriminate].
    unfold lint. rewrite (traverse_core _ _ Hfile). discriminate.
  - assert (H : anchored context (globals (lint context body g))
                /\ value (lint context body g) <> inl importNode_of_undefined).
    { unfold lint. rewrite traverse_cons, bind_globals, bind_value.
      rewrite (create_other _ Hfile). simpl.
      rewrite <- (create_other _ Hfile).
      apply traverse_anchored; [exact Hfile|].
      intros Hp. simpl in Hp. congruence. }
    destruct H as [Hanchored Hvalue]. split; [exact Hvalue|].
    intros _ pending Hpending.
    assert (Hne : imports_of context (importCache (globals (lint context body g))) <> []).
    { apply Hanchored. rewrite Hpending. discriminate. }
    split; [exact Hne|].
    destruct (lastImport_of_nonempty Hne) as [lastImport HL].
    exists lastImport. unfold importOrder_fix. rewrite HL. reflexivity.
Qed.

(** * Further properties of the rule *)

(** ** Which files get the handlers *)

Lemma prefix_append (needle : string) :
  forall s, String.prefix needle s = true <-> exists post, s = (needle ++ post)%string.
Proof.
  induction needle as [|a needle IH]; intros s.
  - split; [intros _; exists s; reflexivity|]. intros _. destruct s; reflexivity.
  - destruct s as [|b s]; simpl.
    + split; [discriminate|]. intros [post H]. discriminate.
    + destruct (ascii_dec a b) as [->|Hne].
      * rewrite IH. split; intros [post H]; exists post.
        -- rewrite H. reflexivity.
        -- inversion H. reflexivity.
      * split; [discriminate|]. intros [post H]. inversion H. congruence.
Qed.

(** [includes] is the search for a substring. *)
Lemma includes_substring (needle : string) :
  forall s,
    includes s needle = true
    <-> exists pre post, s = (pre ++ needle ++ post)%string.
Proof.
  induction s as [|c s IH].
  - change (includes EmptyString needle)
      with (if String.prefix needle EmptyString then true else false).
    destruct (String.prefix needle EmptyString) eqn:E.
    + split; [|reflexivity]. intros _. apply prefix_append in E.
      destruct E as [post E]. exists EmptyString, post. exact E.
    + split; [discriminate|]. intros [pre [post H]].
      destruct pre; [|discriminate]. simpl in H.
      assert (String.prefix needle EmptyString = true)
        by (apply prefix_append; exists post; exact H).
      congruence.
  - change (includes (String c s) needle)
      with (if String.prefix needle (String c s) then true else includes s needle).
    destruct (String.prefix needle (String c s)) eqn:E.
    + split; [|reflexivity]. intros _. apply prefix_append in E.
      destruct E as [post E]. exists EmptyString, post. exact E.
    + rewrite IH. split.
      * intros [pre [post H]]. exists (String c pre), post. rewrite H. reflexivity.
      * intros [pre [post H]]. destruct pre as [|c' pre].
        -- simpl in H.
           assert (String.prefix needle (String c s) = true)
             by (apply prefix_append; exists post; exact H).
           congruence.
        -- inversion H. exists pre, post. reflexivity.
Qed.

(** X1: [create] returns the empty listener exactly for the files whose name
    has [@aws-cdk/core] somewhere in it, and the four handlers for every
    other file. *)
Theorem create_skips_exactly_core_paths (context : RuleContext) :
  (create context = no_listener
   <-> exists pre post, getFilename context = (pre ++ "@aws-cdk/core" ++ post)%string)
  /\ (create context <> no_listener ->
      create context
      = {| Program := Some Program_handler;
           ImportDeclaration := Some (ImportDeclaration_handler context);
           ClassDeclaration := Some (ClassDeclaration_handler context);
           Identifier := Some (Identifier_handler context) |}).
Proof.
  rewrite <- includes_substring. unfold create, no_listener.
  destruct (includes (getFilename context) "@aws-cdk/core"); split.
  - split; reflexivity.
  - intros H. exfalso. apply H. reflexivity.
  - split; discriminate.
  - reflexivity.
Qed.

(** ** What an import declaration leaves behind *)

Lemma ImportDeclaration_loop_completed (context : RuleContext) (n : ImportDeclarationNode)
    (rest : list ImportSpecifierNode) :
  forall i g,
    value (ImportDeclaration_loop context n i rest g) = inr tt ->
    importCache (globals (ImportDeclaration_loop context n i rest g))
    = importCache g ++ map (recorded_import context n) rest.
Proof.
  induction rest as [|s rest IH]; intros i g.
  - simpl. rewrite app_nil_r. reflexivity.
  - simpl. rewrite bind_value, bind_globals, ImportDeclaration_body_outcome.
    destruct (pending_after n i s (importOrderViolation g)); simpl; [discriminate|].
    intros H. rewrite (IH _ _ H). simpl. unfold record. rewrite <- app_assoc. reflexivity.
Qed.

Lemma ImportDeclaration_loop_ranged (context : RuleContext) (n : ImportDeclarationNode)
    (rest : list ImportSpecifierNode) :
  Forall has_range (specifiers n) ->
  forall done g,
    specifiers n = done ++ rest ->
    value (ImportDeclaration_loop context n (Z.of_nat (length done)) rest g) = inr tt.
Proof.
  intros Hranged. induction rest as [|s rest IH]; intros done g Hn; [reflexivity|].
  simpl. rewrite bind_value, ImportDeclaration_body_outcome.
  destruct (@pending_after_ranged n done s rest (importOrderViolation g) Hn Hranged)
    as [p Hp].
  rewrite Hp. simpl.
  replace (Z.of_nat (length done) + 1) with (Z.of_nat (length (done ++ [s])))
    by (rewrite length_app; simpl; lia).
  apply IH. rewrite Hn, <- app_assoc. reflexivity.
Qed.

(** X2: on an import declaration whose specifiers all carry a range, the
    import handler does not throw and reports nothing, and it appends to the
    cache one binding per specifier, in the order of the specifiers, each
    under the current file name and under the key [source.local]. *)
Theorem import_handler_records_every_specifier
    (context : RuleContext) (n : ImportDeclarationNode) (g : Globals) :
  Forall has_range (specifiers n) ->
  value (ImportDeclaration_handler context n g) = inr tt
  /\ reports (ImportDeclaration_handler context n g) = []
  /\ importCache (globals (ImportDeclaration_handler context n g))
     = importCache g
       ++ map (fun s => {| fileName := getFilename context;
                           typeName := specifier_typeName s;
                           importNode := n;
                           localName := composite_key n s |})
              (specifiers n).
Proof.
  intros Hranged. unfold ImportDeclaration_handler.
  assert (Hv : value (ImportDeclaration_loop context n 0 (specifiers n) g) = inr tt)
    by (apply (@ImportDeclaration_loop_ranged context n (specifiers n) Hranged [] g);
        reflexivity).
  split; [exact Hv|]. split; [apply ImportDeclaration_loop_reports|].
  apply ImportDeclaration_loop_completed. exact Hv.
Qed.

(** The three specifiers of [import { A, CoreConstruct, B } from 'm';]. *)
Lemma import_handler_records_every_specifier_witness :
  map localName
      (importCache (globals (ImportDeclaration_handler Samples.app_ts Samples.import_mid
                               Samples.no_globals)))
  = ["m.A"; "m.CoreConstruct"; "m.B"].
Proof.
  destruct (@import_handler_records_every_specifier Samples.app_ts Samples.import_mid
              Samples.no_globals) as [_ [_ H]].
  - repeat constructor; discriminate.
  - rewrite H. reflexivity.
Defined.

(** X3: an import declaration that has at most one specifier, or none whose
    local name is [CoreConstruct], never touches the pending slot and never
    throws, with or without ranges: the import of [CoreConstruct] on a line
    of its own, which the fixes insert, is accepted. *)
Theorem isolated_import_keeps_pending_slot
    (context : RuleContext) (n : ImportDeclarationNode) (g : Globals) :
  (length (specifiers n) <= 1)%nat
  \/ Forall (fun s => local_name s <> "CoreConstruct") (specifiers n) ->
  ImportDeclaration_handler context n g
  = {| globals :=
         {| importCache := importCache g ++ map (recorded_import context n) (specifiers n);
            importOrderViolation := importOrderViolation g |};
       reports := []; value := inr tt |}.
Proof.
  intros [Hlen|Hnone]; unfold ImportDeclaration_handler.
  - destruct (specifiers n) as [|s [|s' rest]] eqn:E; simpl in Hlen; try lia.
    + simpl. rewrite app_nil_r. destruct g; reflexivity.
    + simpl. unfold bind. rewrite ImportDeclaration_body_outcome.
      unfold pending_after. rewrite E. simpl.
      destruct (local_name s =? "CoreConstruct")%string;
        destruct (specifier_range s); reflexivity.
  - apply ImportDeclaration_loop_no_alias. exact Hnone.
Qed.

(** [import { Construct as CoreConstruct } from '@aws-cdk/core';] after a
    combined import: the violation of the combined import stays pending. *)
Lemma isolated_import_keeps_pending_slot_witness :
  let g := globals (lint Samples.app_ts [visit_ImportDeclaration Samples.import_mid]
                      Samples.no_globals) in
  importOrderViolation
    (globals (ImportDeclaration_handler Samples.app_ts QualifierSamples.import_core_alias g))
  = Some {| violation_node := Samples.import_mid; violation_range := (12, 27) |}.
Proof.
  intros g.
  rewrite (@isolated_import_keeps_pending_slot Samples.app_ts
             QualifierSamples.import_core_alias g).
  - reflexivity.
  - left. simpl. lia.
Defined.

Lemma ImportDeclaration_loop_skip_no_alias (context : RuleContext)
    (n : ImportDeclarationNode) (pre rest : list ImportSpecifierNode) :
  Forall (fun s => local_name s <> "CoreConstruct") pre ->
  forall i g,
    ImportDeclaration_loop context n i (pre ++ rest) g
    = ImportDeclaration_loop context n (i + Z.of_nat (length pre)) rest
        {| importCache := importCache g ++ map (recorded_import context n) pre;
           importOrderViolation := importOrderViolation g |}.
Proof.
  induction 1 as [|s pre Hs _ IH]; intros i g.
  - simpl. rewrite app_nil_r, Z.add_0_r. destruct g; reflexivity.
  - simpl app. simpl ImportDeclaration_loop. unfold bind at 1.
    rewrite ImportDeclaration_body_outcome.
    unfold pending_after. apply String.eqb_neq in Hs. rewrite Hs. simpl.
    rewrite IH. simpl.
    replace (i + 1 + Z.of_nat (length pre)) with (i + Z.pos (Pos.of_succ_nat (length pre)))
      by lia.
    unfold record. rewrite <- app_assoc. simpl.
    destruct (ImportDeclaration_loop context n _ rest _); reflexivity.
Qed.

(** X4: where the [range] of the specifier that follows a combined
    [CoreConstruct] specifier is missing, the import handler throws at that
    specifier: the bindings of the specifiers before it are recorded, the
    binding of the [CoreConstruct] specifier and of those after it are not,
    and the pending slot keeps its value. *)
Theorem import_handler_throws_on_missing_next_range
    (context : RuleContext) (n : ImportDeclarationNode) (g : Globals)
    (pre : list ImportSpecifierNode) (s next : ImportSpecifierNode)
    (post : list ImportSpecifierNode) (r : Range) :
  specifiers n = pre ++ s :: next :: post ->
  Forall (fun s' => local_name s' <> "CoreConstruct") pre ->
  local_name s = "CoreConstruct" ->
  specifier_range s = Some r ->
  specifier_range next = None ->
  ImportDeclaration_handler context n g
  = {| globals :=
         {| importCache := importCache g ++ map (recorded_import context n) pre;
            importOrderViolation := importOrderViolation g |};
       reports := []; value := inl range_of_undefined |}.
Proof.
  intros Hn Hpre Halias Hr Hnext. unfold ImportDeclaration_handler.
  rewrite Hn at 1. rewrite ImportDeclaration_loop_skip_no_alias by exact Hpre.
  rewrite Z.add_0_l.
  simpl ImportDeclaration_loop. unfold bind at 1.
  rewrite ImportDeclaration_body_outcome. unfold pending_after.
  rewrite Halias, Hr. simpl.
  replace (1 <? Z.of_nat (length (specifiers n))) with true.
  - rewrite (@violation_range_at_position n pre s (next :: post) r Hn).
    rewrite Hnext. reflexivity.
  - symmetry. apply Z.ltb_lt. rewrite Hn, length_app. simpl. lia.
Qed.

Lemma import_handler_throws_on_missing_next_range_witness :
  let n := {| specifiers := [ImportSpecifier "A" "A" (Some (9, 10));
                             ImportSpecifier "CoreConstruct" "CoreConstruct" (Some (12, 25));
                             ImportSpecifier "B" "B" None];
              source_value := "m"; import_range := (0, 40) |} in
  value (ImportDeclaration_handler Samples.app_ts n Samples.no_globals)
  = inl range_of_undefined
  /\ map localName
         (importCache (globals (ImportDeclaration_handler Samples.app_ts n Samples.no_globals)))
     = ["m.A"].
Proof.
  intros n.
  rewrite (@import_handler_throws_on_missing_next_range Samples.app_ts n Samples.no_globals
             [ImportSpecifier "A" "A" (Some (9, 10))]
             (ImportSpecifier "CoreConstruct" "CoreConstruct" (Some (12, 25)))
             (ImportSpecifier "B" "B" None) [] (12, 25)).
  - split; reflexivity.
  - reflexivity.
  - repeat constructor; discriminate.
  - reflexivity.
  - reflexivity.
  - reflexivity.
Defined.

(** ** The cache only grows *)

Lemma ImportDeclaration_loop_appends (context : RuleContext) (n : ImportDeclarationNode)
    (rest : list ImportSpecifierNode) :
  forall i g,
    exists added,
      importCache (globals (ImportDeclaration_loop context n i rest g))
      = importCache g ++ added
      /\ Forall (fun b => fileName b = getFilename context) added.
Proof.
  induction rest as [|s rest IH]; intros i g.
  - exists []. simpl. rewrite app_nil_r. auto.
  - simpl. rewrite bind_globals, ImportDeclaration_body_outcome.
    destruct (pending_after n i s (importOrderViolation g)); simpl.
    + exists []. rewrite app_nil_r. auto.
    + destruct (IH (i + 1)
                  {| importCache := record (importCache g) (recorded_import context n s);
                     importOrderViolation := o |}) as [added [E F]].
      exists (recorded_import context n s :: added). rewrite E. simpl.
      unfold record. rewrite <- app_assoc. split; [reflexivity|].
      constructor; [reflexivity|exact F].
Qed.

Lemma dispatch_appends (context : RuleContext) (v : Visit) (g : Globals) :
  exists added,
    importCache (globals (dispatch (create context) v g)) = importCache g ++ added
    /\ Forall (fun b => fileName b = getFilename context) added.
Proof.
  unfold create.
  destruct (includes (getFilename context) "@aws-cdk/core").
  - exists []. rewrite app_nil_r. destruct v; auto.
  - destruct v as [|n|n|n]; simpl.
    + exists []. rewrite app_nil_r. auto.
    + apply ImportDeclaration_loop_appends.
    + exists []. rewrite ClassDeclaration_handler_globals, app_nil_r. auto.
    + exists []. rewrite Identifier_handler_globals, app_nil_r. auto.
Qed.

Lemma traverse_appends (context : RuleContext) (vs : list Visit) :
  forall g,
    exists added,
      importCache (globals (traverse (create context) vs g)) = importCache g ++ added
      /\ Forall (fun b => fileName b = getFilename context) added.
Proof.
  induction vs as [|v vs IH]; intros g.
  - exists []. simpl. rewrite app_nil_r. auto.
  - rewrite traverse_cons, bind_globals.
    destruct (dispatch_appends context v g) as [added1 [E1 F1]].
    destruct (value (dispatch (create context) v g)).
    + exists added1. auto.
    + destruct (IH (globals (dispatch (create context) v g))) as [added2 [E2 F2]].
      exists (added1 ++ added2). rewrite E2, E1, <- app_assoc.
      split; [reflexivity|]. apply Forall_app. auto.
Qed.

(** X5: the cache is an append-only log.  Whatever nodes of a file are
    visited, and whether or not a handler throws, the cache afterwards is the
    cache before followed by new bindings, all under the name of the file
    being linted: no binding is removed, changed or reordered, and the
    bindings of every other file are as they were. *)
Theorem cache_is_append_only (context : RuleContext) (vs : list Visit) (g : Globals) :
  exists added,
    importCache (globals (traverse (create context) vs g)) = importCache g ++ added
    /\ Forall (fun b => fileName b = getFilename context) added
    /\ forall other,
        getFilename other <> getFilename context ->
        imports_of other (importCache (globals (traverse (create context) vs g)))
        = imports_of other (importCache g).
Proof.
  destruct (traverse_appends context vs g) as [added [E F]].
  exists added. split; [exact E|]. split; [exact F|].
  intros other Hne. apply traverse_other_slice. congruence.
Qed.

Lemma traverse_completed (context : RuleContext) (vs : list Visit) :
  includes (getFilename context) "@aws-cdk/core" = false ->
  forall g,
    value (traverse (create context) vs g) = inr tt ->
    importCache (globals (traverse (create context) vs g))
    = importCache g ++ flat_map (bindings_of_visit context) vs.
Proof.
  intros Hfile. induction vs as [|v vs IH]; intros g.
  - simpl. rewrite app_nil_r. reflexivity.
  - rewrite traverse_cons, bind_value, bind_globals.
    destruct (value (dispatch (create context) v g)) as [e|[]] eqn:Ev; [discriminate|].
    intros H. rewrite (IH _ H). simpl flat_map. rewrite app_assoc. f_equal.
    rewrite (create_other _ Hfile) in *.
    destruct v as [|n|n|n]; simpl.
    + rewrite app_nil_r. reflexivity.
    + apply ImportDeclaration_loop_completed. exact Ev.
    + rewrite ClassDeclaration_handler_globals, app_nil_r. reflexivity.
    + rewrite Identifier_handler_globals, app_nil_r. reflexivity.
Qed.

(** X6: in a file the rule handles, a traversal that completes leaves in the
    cache exactly the bindings of the import declarations visited, one per
    specifier, in document order; classes, identifiers and the [Program] node
    add nothing, and neither does an import without specifiers. *)
Theorem cache_after_traversal (context : RuleContext) (vs : list Visit) (g : Globals) :
  includes (getFilename context) "@aws-cdk/core" = false ->
  value (traverse (create context) vs g) = inr tt ->
  importCache (globals (traverse (create context) vs g))
  = importCache g
    ++ flat_map (fun v => match v with
                          | visit_ImportDeclaration n =>
                              map (recorded_import context n) (specifiers n)
                          | _ => []
                          end) vs.
Proof.
  intros Hfile Hv. exact (traverse_completed context vs Hfile g Hv).
Qed.

Lemma cache_after_traversal_witness :
  map localName
      (importCache
         (globals (traverse (create Samples.app_ts)
                     [visit_Program;
                      visit_ImportDeclaration Samples.import_core_combined;
                      visit_ImportDeclaration
                        {| specifiers := []; source_value := "./polyfill";
                           import_range := (77, 98) |};
                      visit_ClassDeclaration (Samples.class_extends "cdk" (120, 133));
                      visit_Identifier (Samples.ident "CoreConstruct")]
                     Samples.no_globals)))
  = ["@aws-cdk/core.Resource"; "@aws-cdk/core.CoreConstruct"; "@aws-cdk/core.Token"].
Proof.
  rewrite (@cache_after_traversal Samples.app_ts); reflexivity.
Defined.

(** ** Recording and looking up *)

Lemma find_app {A : Type} (p : A -> bool) (l1 l2 : list A) :
  find p (l1 ++ l2) = match find p l1 with
                      | Some x => Some x
                      | None => find p l2
                      end.
Proof.
  induction l1 as [|a l1 IH]; simpl; [reflexivity|].
  destruct (p a); [reflexivity|exact IH].
Qed.

Lemma imports_of_app (context : RuleContext) (cache added : imports_t) :
  imports_of context (cache ++ added)
  = imports_of context cache ++ imports_of context added.
Proof. apply filter_app. Qed.

Lemma imports_of_own (context : RuleContext) (added : imports_t) :
  Forall (fun b => fileName b = getFilename context) added ->
  imports_of context added = added.
Proof.
  induction 1 as [|b added Hb _ IH]; [reflexivity|].
  unfold imports_of in *. simpl. rewrite Hb, String.eqb_refl, IH. reflexivity.
Qed.

Lemma imports_of_fileName (context : RuleContext) (cache : imports_t) (b : Import) :
  In b (imports_of context cache) -> fileName b = getFilename context.
Proof.
  unfold imports_of. intros H. apply filter_In in H. destruct H as [_ H].
  apply String.eqb_eq. exact H.
Qed.

(** X7: recording then looking up.  After the import handler has completed
    on a declaration, the lookup of [source.local] for any of its specifiers,
    in the bindings of the current file, succeeds with a binding of that key
    and that file; it is a binding of this declaration unless the file had
    one under the same key before, in which case the older binding is
    found. *)
Theorem recorded_binding_is_found
    (context : RuleContext) (n : ImportDeclarationNode) (g : Globals)
    (s : ImportSpecifierNode) :
  value (ImportDeclaration_handler context n g) = inr tt ->
  In s (specifiers n) ->
  let before := imports_of context (importCache g) in
  let after := imports_of context
                 (importCache (globals (ImportDeclaration_handler context n g))) in
  exists b,
    findImport after (composite_key n s) = Some b
    /\ localName b = composite_key n s
    /\ fileName b = getFilename context
    /\ (findImport before (composite_key n s) = None -> importNode b = n)
    /\ (forall older, findImport before (composite_key n s) = Some older -> b = older).
Proof.
  intros Hv Hs before after.
  assert (Hafter : after = before ++ map (recorded_import context n) (specifiers n)).
  { unfold after, ImportDeclaration_handler.
    rewrite (ImportDeclaration_loop_completed _ _ _ _ _ Hv), imports_of_app.
    f_equal. apply imports_of_own.
    apply Forall_forall. intros b Hb. apply in_map_iff in Hb.
    destruct Hb as [s' [<- _]]. reflexivity. }
  unfold findImport. rewrite Hafter, find_app.
  destruct (find _ before) as [older|] eqn:Eold.
  - exists older. destruct (find_some _ _ Eold) as [Hin Hkey].
    repeat split.
    + apply String.eqb_eq. exact Hkey.
    + apply (imports_of_fileName context (importCache g)). exact Hin.
    + discriminate.
    + intros o Ho. inversion Ho. reflexivity.
  - destruct (find (fun i => (localName i =? composite_key n s)%string)
                   (map (recorded_import context n) (specifiers n))) as [b|] eqn:Enew.
    + exists b. destruct (find_some _ _ Enew) as [Hin Hkey].
      apply in_map_iff in Hin. destruct Hin as [s' [<- _]].
      repeat split.
      * apply String.eqb_eq. exact Hkey.
      * discriminate.
    + exfalso.
      assert (H := find_none _ _ Enew (recorded_import context n s)
                     (in_map _ _ _ Hs)).
      simpl in H. unfold composite_key in H. rewrite String.eqb_refl in H. discriminate.
Qed.

(** [Construct] of [constructs] is found after its import was visited. *)
Lemma recorded_binding_is_found_witness :
  exists b,
    findImport
      (imports_of Samples.app_ts
         (importCache (globals (ImportDeclaration_handler Samples.app_ts
                                  Samples.import_constructs Samples.no_globals))))
      "constructs.Construct" = Some b
    /\ importNode b = Samples.import_constructs.
Proof.
  destruct (@recorded_binding_is_found Samples.app_ts Samples.import_constructs
              Samples.no_globals
              (ImportSpecifier "Construct" "Construct" (Some (80, 89))))
    as [b [Hfound [_ [_ [Hnew _]]]]].
  - reflexivity.
  - left. reflexivity.
  - exists b. split; [exact Hfound|]. apply Hnew. reflexivity.
Defined.

(** X8: a lookup that has succeeded keeps its answer.  Once a key is bound
    for a file, the same binding is found after any further traversal, of
    this or of any other file: the first binding recorded under a key
    shadows every later one. *)
Theorem lookup_is_stable
    (context linted : RuleContext) (vs : list Visit) (g : Globals)
    (key : string) (b : Import) :
  findImport (imports_of context (importCache g)) key = Some b ->
  findImport
    (imports_of context (importCache (globals (traverse (create linted) vs g)))) key
  = Some b.
Proof.
  intros Hfound.
  destruct (traverse_appends linted vs g) as [added [E _]].
  rewrite E, imports_of_app. unfold findImport in *.
  rewrite find_app, Hfound. reflexivity.
Qed.

(** [constructs.Construct] of [lib/app.ts], bound by its first import, is
    still the binding found after the file was linted a second time with
    another import of the same name, and after [lib/other.ts] was linted. *)
Lemma lookup_is_stable_witness :
  let g := globals (lint Samples.app_ts
                      [visit_ImportDeclaration Samples.import_constructs]
                      Samples.no_globals) in
  let first := recorded_import Samples.app_ts Samples.import_constructs
                 (ImportSpecifier "Construct" "Construct" (Some (80, 89))) in
  let again := {| specifiers := [ImportDefaultSpecifier "Construct" (Some (7, 16))];
                  source_value := "constructs"; import_range := (0, 35) |} in
  findImport
    (imports_of Samples.app_ts
       (importCache (globals (traverse (create Samples.app_ts)
                                [visit_Program; visit_ImportDeclaration again] g))))
    "constructs.Construct" = Some first
  /\ findImport
       (imports_of Samples.app_ts
          (importCache (globals (traverse (create Samples.other_ts)
                                   [visit_Program; visit_ImportDeclaration again] g))))
       "constructs.Construct" = Some first.
Proof.
  intros g first again.
  split; apply lookup_is_stable; reflexivity.
Defined.

(** X9: once the bindings of a file hold [@aws-cdk/core.Construct], every
    qualifier fix for that file name is the single replacement by
    [Construct], after any further traversal of this or any other file: also
    when the file is linted again and no longer has that import, since the
    cache keeps what was recorded under the file name. *)
Theorem core_Construct_binding_settles_the_fix
    (context linted : RuleContext) (vs : list Visit) (g : Globals) (r : Range) :
  findImport (imports_of context (importCache g)) "@aws-cdk/core.Construct" <> None ->
  report_fix context (importCache (globals (traverse (create linted) vs g))) r
  = [replaceTextRange r "Construct"].
Proof.
  intros Hfound.
  destruct (findImport (imports_of context (importCache g)) "@aws-cdk/core.Construct")
    as [b|] eqn:E; [|congruence].
  destruct (traverse_appends linted vs g) as [added [Ec _]].
  unfold report_fix, replaceBy_addImport.
  rewrite Ec, imports_of_app. unfold findImport in *.
  rewrite find_app, E. reflexivity.
Qed.

(** [lib/app.ts] once imported [Construct] from [@aws-cdk/core]; linted again
    with [import { Construct } from 'constructs';] instead, its
    [cdk.Construct] is still replaced by [Construct], without a new import. *)
Lemma core_Construct_binding_settles_the_fix_witness :
  let g := globals (lint Samples.app_ts
                      [visit_ImportDeclaration QualifierSamples.import_core_plain]
                      Samples.no_globals) in
  map fixes
      (reports (lint Samples.app_ts
                  [visit_ImportDeclaration Samples.import_constructs;
                   visit_ClassDeclaration (Samples.class_extends "cdk" (130, 143))]
                  g))
  = [[replaceTextRange (130, 143) "Construct"]]
  /\ report_fix Samples.app_ts
       (importCache (globals (traverse (create Samples.app_ts)
                                [visit_Program;
                                 visit_ImportDeclaration Samples.import_constructs] g)))
       (130, 143)
     = [replaceTextRange (130, 143) "Construct"].
Proof.
  intros g. split; [reflexivity|].
  apply core_Construct_binding_settles_the_fix. vm_compute. discriminate.
Defined.

(** ** Flushing the pending violation *)

Lemma filter_isolation_qualifier (context : RuleContext) (g : Globals) (n : Node)
    (rg : Range) (rest : list Report) :
  filter is_isolation_report (qualifier_report context g n rg :: rest)
  = filter is_isolation_report rest.
Proof.
  simpl. unfold is_isolation_report at 1. simpl.
  destruct (qualifierMessage =? importOrderMessage)%string eqn:E; [|reflexivity].
  apply String.eqb_eq in E. destruct (messages_differ E).
Qed.

Lemma filter_isolation_class (context : RuleContext) (n : ClassDeclarationNode)
    (g : Globals) :
  filter is_isolation_report (class_qualifier_reports context n g) = [].
Proof.
  unfold class_qualifier_reports.
  destruct (superClass n) as [[id|obj property [rg|]|]|]; try reflexivity.
  destruct (baseClass_of property) as [b|]; try reflexivity.
  destruct (b =? "Construct")%string; [|reflexivity].
  apply filter_isolation_qualifier.
Qed.

Lemma filter_isolation_identifier (context : RuleContext) (n : IdentifierNode)
    (g : Globals) :
  filter is_isolation_report (identifier_qualifier_reports context n g) = [].
Proof.
  unfold identifier_qualifier_reports.
  destruct (typeAnnotation n) as [ann|]; try reflexivity.
  destruct (is_qualified_Construct ann); [|reflexivity].
  apply filter_isolation_qualifier.
Qed.

(** X10: flushing does not clear the slot.  With a violation pending and an
    import recorded for the file, every class or identifier that uses the
    alias reports the same isolation violation once more, with the same two
    edits: a stream with [k] uses yields [k] equal isolation reports, and the
    slot and the cache are as before. *)
Theorem every_use_repeats_the_violation
    (context : RuleContext) (g : Globals) (pending : ImportOrderViolation)
    (lastImport : Import) (vs : list Visit) :
  includes (getFilename context) "@aws-cdk/core" = false ->
  importOrderViolation g = Some pending ->
  lastImport_of (imports_of context (importCache g)) = Some lastImport ->
  forallb is_reference_visit vs = true ->
  filter is_isolation_report (reports (traverse (create context) vs g))
  = repeat {| message := importOrderMessage;
              node := ImportDeclaration_node (violation_node pending);
              fixes := [removeRange (violation_range pending);
                        insertTextAfter (importNode lastImport) isolation_import_text] |}
           (length (filter uses_CoreConstruct vs))
  /\ globals (traverse (create context) vs g) = g
  /\ value (traverse (create context) vs g) = inr tt.
Proof.
  intros Hfile Hpending Hlast.
  assert (Hflush : reportImportOrderViolations context g
                   = {| globals := g;
                        reports :=
                          [{| message := importOrderMessage;
                              node := ImportDeclaration_node (violation_node pending);
                              fixes := [removeRange (violation_range pending);
                                        insertTextAfter (importNode lastImport)
                                          isolation_import_text] |}];
                        value := inr tt |}).
  { rewrite reportImportOrderViolations_outcome, Hpending.
    unfold importOrder_fix. rewrite Hlast. reflexivity. }
  assert (Hiso : is_isolation_report
                   {| message := importOrderMessage;
                      node := ImportDeclaration_node (violation_node pending);
                      fixes := [removeRange (violation_range pending);
                                insertTextAfter (importNode lastImport)
                                  isolation_import_text] |} = true)
    by apply String.eqb_refl.
  induction vs as [|v vs IH]; intros Hvs; [repeat split|].
  simpl in Hvs. apply andb_true_iff in Hvs. destruct Hvs as [Hv Hvs].
  destruct (IH Hvs) as [IHr [IHg IHv]].
  assert (Hstep : globals (dispatch (create context) v g) = g
                  /\ value (dispatch (create context) v g) = inr tt
                  /\ filter is_isolation_report (reports (dispatch (create context) v g))
                     = if uses_CoreConstruct v
                       then [{| message := importOrderMessage;
                                node := ImportDeclaration_node (violation_node pending);
                                fixes := [removeRange (violation_range pending);
                                          insertTextAfter (importNode lastImport)
                                            isolation_import_text] |}]
                       else []).
  { split; [apply dispatch_reference_globals; exact Hv|].
    rewrite (create_other _ Hfile).
    destruct v as [|n|n|n]; try discriminate;
      cbn [dispatch ClassDeclaration Identifier uses_CoreConstruct].
    - rewrite ClassDeclaration_handler_value, ClassDeclaration_handler_reports.
      rewrite filter_app, filter_isolation_class, app_nil_l.
      destruct (class_uses_alias n).
      + rewrite Hflush. cbn [reports value filter]. rewrite Hiso. auto.
      + auto.
    - rewrite Identifier_handler_value, Identifier_handler_reports.
      rewrite filter_app, filter_isolation_identifier, app_nil_l.
      destruct (name n =? "CoreConstruct")%string.
      + rewrite Hflush. cbn [reports value filter]. rewrite Hiso. auto.
      + auto. }
  destruct Hstep as [Hg [Hval Hrep]].
  rewrite traverse_cons, bind_reports, bind_globals, bind_value, Hval, Hg.
  rewrite filter_app, Hrep, IHr. split; [|split; assumption].
  simpl. destruct (uses_CoreConstruct v); reflexivity.
Qed.

(** Two uses of [CoreConstruct] after a combined import. *)
Lemma every_use_repeats_the_violation_witness :
  let g := globals (lint Samples.app_ts
                      [visit_ImportDeclaration Samples.import_mid] Samples.no_globals) in
  let vs := [visit_Identifier (Samples.ident "CoreConstruct");
             visit_ClassDeclaration (Samples.class_extends "cdk" (60, 73));
             visit_Identifier (Samples.ident "CoreConstruct")] in
  length (reports (traverse (create Samples.app_ts) vs g)) = 3%nat
  /\ filter is_isolation_report (reports (traverse (create Samples.app_ts) vs g))
     = repeat {| message := importOrderMessage;
                 node := ImportDeclaration_node Samples.import_mid;
                 fixes := [removeRange (12, 27);
                           insertTextAfter Samples.import_mid isolation_import_text] |}
              2.
Proof.
  intros g vs. split; [reflexivity|].
  destruct (@every_use_repeats_the_violation Samples.app_ts g
              {| violation_node := Samples.import_mid; violation_range := (12, 27) |}
              (recorded_import Samples.app_ts Samples.import_mid
                 (ImportSpecifier "B" "B" (Some (27, 28))))
              vs) as [H _]; [reflexivity|reflexivity|reflexivity|reflexivity|exact H].
Defined.

(** ** Classes *)

(** X11: the class handler reports a qualifier violation exactly for a class
    whose superclass is a member expression with a range and with the
    identifier [Construct] as its property, whatever the object of the
    member expression is; the violation is at the class and its fix replaces
    the range of the superclass. *)
Theorem class_qualifier_violation_iff
    (context : RuleContext) (n : ClassDeclarationNode) (g : Globals) (r : Report) :
  (In r (reports (ClassDeclaration_handler context n g)) /\ message r = qualifierMessage)
  <-> exists qualifier id rg,
        superClass n = Some (MemberExpression qualifier (Identifier_expr id) (Some rg))
        /\ name id = "Construct"
        /\ r = {| message := qualifierMessage;
                  node := ClassDeclaration_node n;
                  fixes := report_fix context (importCache g) rg |}.
Proof.
  rewrite ClassDeclaration_handler_reports.
  unfold class_qualifier_reports, class_uses_alias.
  split.
  - intros [Hin Hmsg]. apply in_app_or in Hin. destruct Hin as [Hin|Hin].
    + destruct (superClass n) as [[id|obj property [rg|]|]|]; simpl in Hin; try tauto.
      destruct property as [id|obj' property' rg'|]; simpl in Hin; try tauto.
      destruct (name id =? "Construct")%string eqn:E; simpl in Hin; try tauto.
      destruct Hin as [<-|[]]. apply String.eqb_eq in E.
      exists obj, id, rg. repeat split. exact E.
    + exfalso.
      destruct (match superClass n with
                | Some (MemberExpression _ property _) =>
                    match baseClass_of property with
                    | Some b => (b =? "CoreConstruct")%string
                    | None => false
                    end
                | _ => false
                end); [|destruct Hin].
      destruct (reportImportOrderViolations_reports _ _ _ Hin) as [v [_ [Hm _]]].
      apply messages_differ. congruence.
  - intros [qualifier [id [rg [Hsc [Hid ->]]]]]. split; [|reflexivity].
    rewrite Hsc. simpl. rewrite Hid. simpl. left. reflexivity.
Qed.

(** ** Where the new import goes *)

Lemma flat_map_no_bindings (context : RuleContext) (vs : list Visit) :
  Forall (fun v => bindings_of_visit context v = []) vs ->
  flat_map (bindings_of_visit context) vs = [].
Proof.
  induction 1 as [|v vs Hv _ IH]; [reflexivity|].
  simpl. rewrite Hv, IH. reflexivity.
Qed.

(** X12: the anchor of an inserted import is the last import declaration
    visited that has a specifier.  After a completed traversal in which the
    declaration [d] is followed by no other import with specifiers, the
    isolation fix inserts its import after [d], and so does the qualifier
    fix when it inserts one: imports without specifiers that follow [d] are
    passed over. *)
Theorem insertion_anchor_is_last_import_with_specifiers
    (context : RuleContext) (g : Globals) (before : list Visit)
    (d : ImportDeclarationNode) (after : list Visit)
    (ss : list ImportSpecifierNode) (s : ImportSpecifierNode) :
  includes (getFilename context) "@aws-cdk/core" = false ->
  specifiers d = ss ++ [s] ->
  Forall (fun v => match v with
                   | visit_ImportDeclaration n => specifiers n = []
                   | _ => True
                   end) after ->
  let run := traverse (create context) (before ++ visit_ImportDeclaration d :: after) g in
  value run = inr tt ->
  (forall pending,
      importOrder_fix context (importCache (globals run)) pending
      = inr [removeRange (violation_range pending);
             insertTextAfter d isolation_import_text])
  /\ (forall r anchor text,
         In (insertTextAfter anchor text) (report_fix context (importCache (globals run)) r) ->
         anchor = d).
Proof.
  intros Hfile Hd Hafter run Hv.
  assert (Hlast : lastImport_of (imports_of context (importCache (globals run)))
                  = Some (recorded_import context d s)).
  { unfold run. rewrite (traverse_completed context _ Hfile g Hv).
    rewrite flat_map_app. simpl flat_map.
    rewrite (@flat_map_no_bindings context after).
    - rewrite Hd, map_app, app_nil_r. simpl map.
      rewrite !app_assoc, imports_of_app.
      rewrite (@imports_of_own context [recorded_import context d s])
        by (repeat constructor).
      apply at_index_app_last.
    - eapply Forall_impl; [|exact Hafter].
      intros [|n|n|n]; simpl; try reflexivity. intros ->. reflexivity. }
  split.
  - intros pending. unfold importOrder_fix. rewrite Hlast. reflexivity.
  - intros r anchor text. unfold report_fix.
    destruct (replaceBy_addImport _) as [replaceBy [addImport|]].
    + rewrite Hlast. simpl. intros [H|[H|[]]]; [discriminate|]. inversion H. reflexivity.
    + simpl. intros [H|[]]. discriminate.
Qed.

(** A combined import followed by [import './polyfill';]: the new import
    goes after the combined import, before the polyfill. *)
Lemma insertion_anchor_is_last_import_with_specifiers_witness :
  let polyfill := {| specifiers := []; source_value := "./polyfill";
                     import_range := (41, 62) |} in
  let run := traverse (create Samples.app_ts)
               ([visit_Program] ++ visit_ImportDeclaration Samples.import_mid
                                :: [visit_ImportDeclaration polyfill])
               Samples.no_globals in
  importOrderViolation (globals run)
  = Some {| violation_node := Samples.import_mid; violation_range := (12, 27) |}
  /\ importOrder_fix Samples.app_ts (importCache (globals run))
       {| violation_node := Samples.import_mid; violation_range := (12, 27) |}
     = inr [removeRange (12, 27);
            insertTextAfter Samples.import_mid isolation_import_text].
Proof.
  intros polyfill run. split; [reflexivity|].
  apply (@insertion_anchor_is_last_import_with_specifiers Samples.app_ts Samples.no_globals
           [visit_Program] Samples.import_mid [visit_ImportDeclaration polyfill]
           [ImportSpecifier "A" "A" (Some (9, 10));
            ImportSpecifier "CoreConstruct" "CoreConstruct" (Some (12, 25))]
           (ImportSpecifier "B" "B" (Some (27, 28)))).
  - reflexivity.
  - reflexivity.
  - repeat constructor.
  - reflexivity.
Defined.

(** ** From one file to the next *)

Lemma filter_none {A : Type} (f : A -> bool) (l : list A) :
  (forall x, In x l -> f x = false) -> filter f l = [].
Proof.
  induction l as [|a l IH]; intros H; [reflexivity|].
  simpl. rewrite (H a) by (left; reflexivity).
  apply IH. intros x Hx. apply H. right. exact Hx.
Qed.

Lemma traverse_reference_no_pending (context : RuleContext) (vs : list Visit) (g : Globals) :
  importOrderViolation g = None ->
  forallb is_reference_visit vs = true ->
  value (traverse (create context) vs g) = inr tt
  /\ filter is_isolation_report (reports (traverse (create context) vs g)) = [].
Proof.
  intros Hnone Hvs. split.
  - revert Hvs. induction vs as [|v vs IH]; intros Hvs; [reflexivity|].
    simpl in Hvs. apply andb_true_iff in Hvs. destruct Hvs as [Hv Hvs].
    rewrite traverse_cons, bind_value.
    assert (Hval : value (dispatch (create context) v g) = inr tt).
    { assert (Hflush : value (reportImportOrderViolations context g) = inr tt)
        by (apply reportImportOrderViolations_anchored; intros H; congruence).
      unfold create. destruct (includes (getFilename context) "@aws-cdk/core");
        destruct v as [|n|n|n]; try discriminate; try reflexivity;
        cbn [dispatch ClassDeclaration Identifier].
      - rewrite ClassDeclaration_handler_value. destruct (class_uses_alias n); auto.
      - rewrite Identifier_handler_value.
        destruct (name n =? "CoreConstruct")%string; auto. }
    rewrite Hval, (dispatch_reference_globals context v Hv g). apply IH. exact Hvs.
  - apply filter_none. intros r Hin.
    unfold is_isolation_report.
    destruct (message r =? importOrderMessage)%string eqn:E; [|reflexivity].
    apply String.eqb_eq in E.
    destruct (traverse_reference_flushes context vs Hvs g r Hin E) as [p [Hp _]].
    congruence.
Qed.

Lemma dispatch_Program_other (context : RuleContext) (g : Globals) :
  includes (getFilename context) "@aws-cdk/core" = false ->
  dispatch (create context) visit_Program g
  = {| globals := {| importCache := importCache g; importOrderViolation := None |};
       reports := []; value := inr tt |}.
Proof. intros Hfile. rewrite (create_other _ Hfile). reflexivity. Qed.

(** X13: a violation left pending by one file is never flushed in the next.
    Linting a file in which no import declaration is visited reports no
    isolation violation and does not throw, whatever was pending and
    whatever the cache holds when the file begins; the cache is as it was. *)
Theorem stale_violation_is_never_flushed
    (context : RuleContext) (body : list Visit) (g : Globals) :
  forallb is_reference_visit body = true ->
  value (lint context body g) = inr tt
  /\ filter is_isolation_report (reports (lint context body g)) = []
  /\ importCache (globals (lint context body g)) = importCache g.
Proof.
  intros Hbody. unfold lint.
  destruct (includes (getFilename context) "@aws-cdk/core") eqn:Hfile.
  - rewrite (traverse_core _ _ Hfile). repeat split.
  - rewrite traverse_cons, bind_value, bind_reports, bind_globals.
    rewrite (@dispatch_Program_other context g Hfile).
    cbn [value reports globals app].
    destruct (@traverse_reference_no_pending context body
                {| importCache := importCache g; importOrderViolation := None |})
      as [Hv Hr]; [reflexivity|exact Hbody|].
    rewrite (traverse_reference_globals context body Hbody).
    repeat split; assumption.
Qed.

(** [lib/other.ts] uses [CoreConstruct] without importing it, right after
    [lib/app.ts] left a violation pending. *)
Lemma stale_violation_is_never_flushed_witness :
  let g := globals (lint Samples.app_ts [visit_ImportDeclaration Samples.import_mid]
                      Samples.no_globals) in
  importOrderViolation g <> None
  /\ reports (lint Samples.other_ts [visit_Identifier (Samples.ident "CoreConstruct")] g)
     = []
  /\ filter is_isolation_report
       (reports (lint Samples.other_ts [visit_Identifier (Samples.ident "CoreConstruct")] g))
     = [].
Proof.
  intros g. split; [discriminate|]. split; [reflexivity|].
  apply (@stale_violation_is_never_flushed Samples.other_ts
           [visit_Identifier (Samples.ident "CoreConstruct")] g).
  reflexivity.
Defined.

(** * The first version of the rule *)

Lemma draft_loop_quiet (n : ImportDeclarationNode) (rest : list ImportSpecifierNode)
    (seen : Draft.coreConstructSeen_t) :
  Draft.truthy seen = false ->
  forallb (fun s => negb (Draft.imports_CoreConstruct s)) rest = true ->
  Draft.ImportDeclaration_loop n rest seen = (seen, []).
Proof.
  intros Hseen. induction rest as [|s rest IH]; intros H; [reflexivity|].
  simpl in H. apply andb_true_iff in H. destruct H as [Hs Hrest].
  apply negb_true_iff in Hs. unfold Draft.imports_CoreConstruct in Hs.
  simpl. unfold Draft.ImportDeclaration_body. rewrite Hs, Hseen.
  rewrite (IH Hrest). reflexivity.
Qed.

Lemma draft_loop_seen (n : ImportDeclarationNode) (rest : list ImportSpecifierNode) :
  forall seen,
    Draft.truthy seen = true ->
    Draft.ImportDeclaration_loop n rest seen
    = (Some true,
       flat_map (fun s =>
                   {| Draft.message := "heyhey"; Draft.node := n |}
                   :: (if (Draft.imports_CoreConstruct s
                           && (1 <? Z.of_nat (length (specifiers n))))%bool
                       then [{| Draft.message := "hey"; Draft.node := n |}] else []))
                rest).
Proof.
  induction rest as [|s rest IH]; intros seen Hseen.
  - simpl. destruct seen as [[|]|]; try discriminate. reflexivity.
  - simpl. unfold Draft.ImportDeclaration_body, Draft.imports_CoreConstruct.
    rewrite Hseen.
    destruct (specifier_typeName s =? "CoreConstruct")%string; simpl.
    + rewrite (IH (Some true)) by reflexivity.
      destruct (1 <? Z.of_nat (length (specifiers n))); reflexivity.
    + rewrite (IH seen Hseen). reflexivity.
Qed.

(** X14: in the first version, once [CoreConstruct] has been imported every
    import declaration that follows is reported once per specifier: the
    handler reports [heyhey] at the declaration for each of its specifiers,
    and [hey] besides for each specifier that imports [CoreConstruct] on a
    line with several; the flag stays set. *)
Theorem draft_reports_every_specifier_after_CoreConstruct
    (context : RuleContext) (n : ImportDeclarationNode) :
  Draft.ImportDeclaration (Draft.create context) n (Some true)
  = (Some true,
     flat_map (fun s =>
                 {| Draft.message := "heyhey"; Draft.node := n |}
                 :: (if ((specifier_typeName s =? "CoreConstruct")%string
                         && (1 <? Z.of_nat (length (specifiers n))))%bool
                     then [{| Draft.message := "hey"; Draft.node := n |}] else []))
              (specifiers n))
  /\ length (filter (fun r => (Draft.message r =? "heyhey")%string)
               (snd (Draft.ImportDeclaration (Draft.create context) n (Some true))))
     = length (specifiers n).
Proof.
  simpl Draft.ImportDeclaration.
  rewrite (draft_loop_seen n (specifiers n) (Some true)) by reflexivity.
  split; [reflexivity|]. simpl snd.
  generalize (1 <? Z.of_nat (length (specifiers n))). intros several.
  induction (specifiers n) as [|s rest IH]; [reflexivity|].
  simpl. rewrite filter_app, length_app, IH.
  destruct (Draft.imports_CoreConstruct s && several)%bool; reflexivity.
Qed.

(** X15: in the first version, the first import of [CoreConstruct] in a file
    is reported with [hey] exactly when its declaration has several
    specifiers, and each specifier after it on the same line is reported
    with [heyhey]; the flag is set afterwards. *)
Theorem draft_first_CoreConstruct_import
    (context : RuleContext) (n : ImportDeclarationNode)
    (seen : Draft.coreConstructSeen_t)
    (pre : list ImportSpecifierNode) (s : ImportSpecifierNode)
    (post : list ImportSpecifierNode) :
  Draft.truthy seen = false ->
  specifiers n = pre ++ s :: post ->
  forallb (fun s' => negb (Draft.imports_CoreConstruct s')) pre = true ->
  specifier_typeName s = "CoreConstruct" ->
  Draft.ImportDeclaration (Draft.create context) n seen
  = (Some true,
     (if 1 <? Z.of_nat (length (specifiers n))
      then [{| Draft.message := "hey"; Draft.node := n |}] else [])
     ++ flat_map (fun s' =>
                    {| Draft.message := "heyhey"; Draft.node := n |}
                    :: (if (Draft.imports_CoreConstruct s'
                            && (1 <? Z.of_nat (length (specifiers n))))%bool
                        then [{| Draft.message := "hey"; Draft.node := n |}] else []))
                 post).
Proof.
  intros Hseen Hn Hpre Hs. simpl Draft.ImportDeclaration. rewrite Hn at 1.
  clear Hn. induction pre as [|p pre IH].
  - simpl. unfold Draft.ImportDeclaration_body at 1. rewrite Hs, Hseen. simpl.
    rewrite (draft_loop_seen n post (Some true)) by reflexivity. reflexivity.
  - simpl in Hpre. apply andb_true_iff in Hpre. destruct Hpre as [Hp Hpre].
    apply negb_true_iff in Hp. unfold Draft.imports_CoreConstruct in Hp.
    simpl. unfold Draft.ImportDeclaration_body at 1. rewrite Hp, Hseen.
    rewrite (IH Hpre). reflexivity.
Qed.

(** [import { A, CoreConstruct, B } from 'm';] as the first import of
    [CoreConstruct]: one [hey], then one [heyhey] for [B]. *)
Lemma draft_first_CoreConstruct_import_witness :
  Draft.ImportDeclaration (Draft.create Samples.app_ts) Samples.import_mid (Some false)
  = (Some true,
     [{| Draft.message := "hey"; Draft.node := Samples.import_mid |};
      {| Draft.message := "heyhey"; Draft.node := Samples.import_mid |}]).
Proof.
  apply (@draft_first_CoreConstruct_import Samples.app_ts Samples.import_mid (Some false)
           [ImportSpecifier "A" "A" (Some (9, 10))]
           (ImportSpecifier "CoreConstruct" "CoreConstruct" (Some (12, 25)))
           [ImportSpecifier "B" "B" (Some (27, 28))]); reflexivity.
Defined.

Lemma draft_traverse_quiet (context : RuleContext) (vs : list Visit) :
  Forall (fun v => match v with
                   | visit_ImportDeclaration n =>
                       forallb (fun s => negb (Draft.imports_CoreConstruct s))
                               (specifiers n) = true
                   | visit_Program => False
                   | _ => True
                   end) vs ->
  forall seen,
    Draft.truthy seen = false ->
    Draft.traverse (Draft.create context) vs seen = (seen, []).
Proof.
  induction 1 as [|v vs Hv _ IH]; intros seen Hseen; [reflexivity|].
  simpl. destruct v as [|n|n|n]; simpl; try contradiction.
  - rewrite (draft_loop_quiet n (specifiers n) seen Hseen Hv).
    rewrite (IH seen Hseen). reflexivity.
  - rewrite (IH seen Hseen). reflexivity.
  - rewrite (IH seen Hseen). reflexivity.
Qed.

Lemma draft_traverse_references (context : RuleContext) (vs : list Visit) :
  forallb is_reference_visit vs = true ->
  forall seen, Draft.traverse (Draft.create context) vs seen = (seen, []).
Proof.
  induction vs as [|v vs IH]; intros H seen; [reflexivity|].
  simpl in H. apply andb_true_iff in H. destruct H as [Hv Hvs].
  destruct v; try discriminate; simpl; rewrite (IH Hvs); reflexivity.
Qed.

Lemma draft_traverse_app (listener : Draft.NodeListener) (vs1 vs2 : list Visit) :
  forall seen,
    Draft.traverse listener (vs1 ++ vs2) seen
    = let '(seen1, reports1) := Draft.traverse listener vs1 seen in
      let '(seen2, reports2) := Draft.traverse listener vs2 seen1 in
      (seen2, reports1 ++ reports2).
Proof.
  induction vs1 as [|v vs1 IH]; intros seen.
  - simpl. destruct (Draft.traverse listener vs2 seen). reflexivity.
  - simpl. destruct (Draft.dispatch listener v seen) as [seen1 reports1].
    rewrite IH. destruct (Draft.traverse listener vs1 seen1) as [seen2 reports2].
    destruct (Draft.traverse listener vs2 seen2) as [seen3 reports3].
    rewrite app_assoc. reflexivity.
Qed.

Lemma draft_lint_resets (context : RuleContext) (body : list Visit)
    (seen : Draft.coreConstructSeen_t) :
  Draft.lint context body seen = Draft.traverse (Draft.create context) body (Some false).
Proof.
  unfold Draft.lint. simpl.
  destruct (Draft.traverse _ body (Some false)). reflexivity.
Qed.

(** X16: the first version accepts the layout it asks for.  A file whose
    imports do not import [CoreConstruct], followed by one import
    declaration with the single specifier [CoreConstruct] and then by
    classes and identifiers only, is linted without a report, whatever the
    flag was when the file began. *)
Theorem draft_accepts_CoreConstruct_imported_last
    (context : RuleContext) (imports : list Visit) (n : ImportDeclarationNode)
    (s : ImportSpecifierNode) (references : list Visit)
    (seen : Draft.coreConstructSeen_t) :
  Forall (fun v => match v with
                   | visit_ImportDeclaration d =>
                       forallb (fun s' => negb (Draft.imports_CoreConstruct s'))
                               (specifiers d) = true
                   | visit_Program => False
                   | _ => True
                   end) imports ->
  specifiers n = [s] ->
  specifier_typeName s = "CoreConstruct" ->
  forallb is_reference_visit references = true ->
  Draft.lint context (imports ++ visit_ImportDeclaration n :: references) seen
  = (Some true, []).
Proof.
  intros Himports Hn Hs Hrefs.
  rewrite draft_lint_resets, draft_traverse_app.
  rewrite (draft_traverse_quiet context Himports (Some false)) by reflexivity.
  cbv beta iota.
  change (visit_ImportDeclaration n :: references)
    with ([visit_ImportDeclaration n] ++ references).
  rewrite draft_traverse_app.
  assert (Hstep : Draft.traverse (Draft.create context) [visit_ImportDeclaration n]
                    (Some false) = (Some true, [])).
  { simpl. rewrite Hn. simpl. unfold Draft.ImportDeclaration_body.
    rewrite Hs, Hn. reflexivity. }
  rewrite Hstep. cbv beta iota.
  rewrite (draft_traverse_references context references Hrefs).
  reflexivity.
Qed.

Lemma draft_accepts_CoreConstruct_imported_last_witness :
  Draft.lint Samples.app_ts
    ([visit_ImportDeclaration Samples.import_constructs]
     ++ visit_ImportDeclaration
          {| specifiers := [ImportSpecifier "CoreConstruct" "CoreConstruct" (Some (9, 22))];
             source_value := "@aws-cdk/core"; import_range := (0, 46) |}
     :: [visit_ClassDeclaration (Samples.class_extends "cdk" (60, 73))])
    (Some true)
  = (Some true, []).
Proof.
  apply (@draft_accepts_CoreConstruct_imported_last Samples.app_ts
           [visit_ImportDeclaration Samples.import_constructs] _
           (ImportSpecifier "CoreConstruct" "CoreConstruct" (Some (9, 22)))).
  - repeat constructor.
  - reflexivity.
  - reflexivity.
  - reflexivity.
Defined.



(** X18: the first version is silent on a file that does not import
    [CoreConstruct].  If no specifier of any import declaration visited
    imports [CoreConstruct], linting the file reports nothing and leaves the
    flag cleared, whatever the flag was when the file began. *)
Theorem draft_silent_without_CoreConstruct
    (context : RuleContext) (body : list Visit) (seen : Draft.coreConstructSeen_t) :
  Forall (fun v => match v with
                   | visit_ImportDeclaration d =>
                       forallb (fun s => negb (Draft.imports_CoreConstruct s))
                               (specifiers d) = true
                   | visit_Program => False
                   | _ => True
                   end) body ->
  Draft.lint context body seen = (Some false, []).
Proof.
  intros Hbody. rewrite draft_lint_resets.
  apply draft_traverse_quiet; [exact Hbody|reflexivity].
Qed.

(** A file with two imports and a class, linted after a file that imported
    [CoreConstruct]. *)
Lemma draft_silent_without_CoreConstruct_witness :
  Draft.lint Samples.app_ts
    [visit_ImportDeclaration Samples.import_constructs;
     visit_ImportDeclaration QualifierSamples.import_unrelated;
     visit_ClassDeclaration (Samples.class_extends "cdk" (130, 143))]
    (Some true)
  = (Some false, []).
Proof.
  apply draft_silent_without_CoreConstruct. repeat constructor.
Defined.
